(** * Mass-adoption: share quota, eligibility, application and payment handlers

    The repository ships two backends for the same HTTP surface:

    - [Persistent]: [api/index.js], the MongoDB-backed Express app;
    - [InMemory]: the Express app that keeps everything in one module-level
      object [db = { users, shares, payments, applications }].

    Each route handler is embedded as a function from the request and the
    store to a response and the next store.  [new Date()] is an explicit
    clock argument; the Paystack calls are an explicit interaction
    ([prog]); the fresh uuid of a payment reference is an argument of the
    request.

    Typing of the model: phones and references are strings (an absent field
    and the empty string are both falsy in the source, and are both the empty
    string here); counters are integers; an amount is an integer, which the
    program holds as the nearest double, and is small enough for a hundred
    times it to be a finite double; the database driver does not fail.  The
    three dictionaries of the in-memory backend are plain JavaScript
    objects: the model keeps their own properties in finite maps and, beside
    them, what the handlers assign on the members those objects inherit from
    [Object.prototype]. *)

From Stdlib Require Import ZArith String List Bool Lia.
From stdpp Require Import base option list gmap strings fin_maps.

Set Warnings "-register-all".
Local Open Scope string_scope.
Local Open Scope Z_scope.

(** ** JSON values, truthiness and responses *)

(** [VInherited m] stands for what [JSON.stringify] makes of the member a
    dictionary inherits under the name [m]. *)
Inductive value : Type :=
  | VNull
  | VBool (b : bool)
  | VNum (n : Z)
  | VStr (s : string)
  | VDate (t : Z)
  | VObj (fields : list (string * value))
  | VInherited (m : string).

(** [!s] for a string. *)
Definition falsy (s : string) : bool :=
  match s with EmptyString => true | String _ _ => false end.

(** [!!v]; [None] is [undefined]. *)
Definition truthy (v : option value) : bool :=
  match v with
  | None | Some VNull => false
  | Some (VBool b) => b
  | Some (VNum n) => negb (Z.eqb n 0)
  | Some (VStr s) => negb (falsy s)
  | Some (VDate _) | Some (VObj _) | Some (VInherited _) => true
  end.

(** [!!o] for an object that may be [undefined] or [null]. *)
Definition is_some {A} (o : option A) : bool :=
  match o with Some _ => true | None => false end.

(** [a || b] on strings. *)
Definition str_or (a b : string) : string := if falsy a then b else a.

(** [x || 0] on a number. *)
Definition num_or0 (x : Z) : Z := if Z.eqb x 0 then 0 else x.

(** The double nearest to an integer (ties to even), for integers below
    2^1024 in magnitude: every integer up to 2^53 in magnitude is its own
    double, a larger one keeps its 53 leading bits. *)
Definition round_double (n : Z) : Z :=
  let a := Z.abs n in
  if a <=? 2 ^ 53 then n
  else
    let e := Z.log2 a - 52 in
    let q := a / 2 ^ e in
    let r := a mod 2 ^ e in
    let half := 2 ^ (e - 1) in
    let q := if (half <? r) || ((r =? half) && Z.odd q) then q + 1 else q in
    Z.sgn n * (q * 2 ^ e).

(** [a * b] on numbers that are integers. *)
Definition js_mul (a b : Z) : Z := round_double (a * b).

(** A response body: a JSON object, a text, or ([res.json(v)] for the member
    [v] a dictionary inherits under the name [m]) whatever [JSON.stringify]
    makes of that member. *)
Inductive payload : Type :=
  | Json (fields : list (string * value))
  | Text (s : string)
  | Inherited (m : string).

Record response : Type := Response { code : Z; body : payload }.

(** What a handler leaves its client with: a response of its own, or none
    when it throws outside of any [try] before it has answered (the client
    then gets what the framework makes of the failure, never the handler's
    200). *)
Inductive outcome : Type :=
  | Answered (r : response)
  | Unanswered.

(** The status of the answer, if there is one. *)
Definition status_of (o : outcome) : option Z :=
  match o with
  | Answered r => Some (code r)
  | Unanswered => None
  end.

(** [res.json(o)] answers 200 unless [res.status] was called first. *)
Definition json (o : list (string * value)) : response := Response 200 (Json o).
Definition status_json (c : Z) (o : list (string * value)) : response :=
  Response c (Json o).
Definition error_json (c : Z) (msg : string) : response :=
  status_json c [("error", VStr msg)].

Fixpoint assoc (k : string) (o : list (string * value)) : option value :=
  match o with
  | [] => None
  | (k', v) :: o' => if String.eqb k k' then Some v else assoc k o'
  end.

(** The field [k] of a JSON response body ([None] when the body has none). *)
Definition field (k : string) (r : response) : option value :=
  match body r with
  | Json o => assoc k o
  | Text _ | Inherited _ => None
  end.

(** ** The payment provider *)

(** What [axios.get(.../transaction/verify/ref)] can do: reject (transport
    error, non-2xx, malformed reply) or resolve with [data.data.status]. *)
Inductive provider_reply : Type :=
  | Threw
  | Status (s : string).

(** What [axios.post(.../transaction/initialize)] can do: reject, or resolve
    with a reply whose [data.data] is missing ([None]) or carries the
    [authorization_url] and the [access_code]. *)
Inductive init_reply : Type :=
  | Rejects
  | Resolves (data : option (string * string)).

(** A handler that may call the provider: it answers at once, or asks for
    the verification of a reference, or asks for a transaction to be
    initialized, and goes on with the reply. *)
Inductive prog (A : Type) : Type :=
  | Ret (a : A)
  | Verify (reference : string) (k : provider_reply → prog A)
  | Initialize (email : string) (kobo : Z) (reference : string)
      (k : init_reply → prog A).
Arguments Ret {A} a.
Arguments Verify {A} reference k.
Arguments Initialize {A} email kobo reference k.

Record provider : Type := Provider {
  on_verify : string → provider_reply;
  on_initialize : string → init_reply
}.

(** Running a handler against a provider; the second component lists the
    references the provider was called with. *)
Fixpoint run {A} (pv : provider) (p : prog A) : A * list string :=
  match p with
  | Ret a => (a, [])
  | Verify r k =>
      let '(a, calls) := run pv (k (on_verify pv r)) in (a, r :: calls)
  | Initialize _ _ r k =>
      let '(a, calls) := run pv (k (on_initialize pv r)) in (a, r :: calls)
  end.

(** The circumstances of one request: the clock and the provider. *)
Record env : Type := Env { now : Z; paystack : provider }.

(** ** The MongoDB backend ([api/index.js]) *)

Module Persistent.

(** A document of the [shares] collection (the [phone] it is filed under
    is the key of the map). *)
Record share_doc : Type :=
  ShareDoc { friends : Z; groups : Z; updated_at : Z }.

(** A document of the [payments] collection, filed under
    [(phone, reference)]. *)
Record payment_doc : Type :=
  PaymentDoc { status : string; upgrade : bool; updatedAt : Z }.

Record db : Type := Db {
  shares : gmap string share_doc;
  applications : gmap string (gmap string value);
  payments : gmap (string * string) payment_doc
}.

Definition empty_db : db := Db ∅ ∅ ∅.

(** *** POST /api/share *)

(** [type] is the string of the request body (the empty string when the
    field is absent). *)
Record share_req : Type := ShareReq { s_phone : string; s_type : string }.

(** [['friend', 'group'].includes(type)] *)
Definition valid_type (t : string) : bool :=
  String.eqb t "friend" || String.eqb t "group".

(** [findOne({ phone }) || { friends: 0, groups: 0 }], as the pair of
    counters the handler goes on with. *)
Definition find_shares (s : db) (phone : string) : Z * Z :=
  match shares s !! phone with
  | Some d => (friends d, groups d)
  | None => (0, 0)
  end.

Definition share (now : Z) (r : share_req) (s : db) : response * db :=
  if falsy (s_phone r) || negb (valid_type (s_type r))
  then (error_json 400 "Invalid", s)
  else
    let '(f, g) := find_shares s (s_phone r) in
    let f := if String.eqb (s_type r) "friend"
             then Z.min (num_or0 f + 1) 10 else f in
    let g := if String.eqb (s_type r) "group"
             then Z.min (num_or0 g + 1) 2 else g in
    (json [("shared", VObj [("friends", VNum f); ("groups", VNum g)])],
     Db (<[s_phone r := ShareDoc f g now]> (shares s))
        (applications s) (payments s)).

(** *** GET /api/share-status *)

Definition share_status (phone : string) (s : db) : response * db :=
  if falsy phone
  then (json [("friends", VNum 0); ("groups", VNum 0)], s)
  else
    match shares s !! phone with
    | Some d => (json [("friends", VNum (num_or0 (friends d)));
                       ("groups", VNum (num_or0 (groups d)))], s)
    | None => (json [("friends", VNum 0); ("groups", VNum 0)], s)
    end.

(** *** POST /api/application *)

(** [const { phone, ...formData } = req.body] *)
Record application_req : Type :=
  ApplicationReq { a_phone : string; a_form : gmap string value }.

(** The form data [$set] treats as a set of fields: every name is flat (not
    empty, not [_id], made of letters, digits and underscores: a dot would
    make it a path and a dollar an operator, which [updateOne] may refuse)
    and every value is a scalar.  [application_set] and [set_fields] below
    describe [updateOne] on such forms. *)
Definition flat_char (c : Ascii.ascii) : bool :=
  let n := Ascii.N_of_ascii c in
  (((48 <=? n) && (n <=? 57)) || ((65 <=? n) && (n <=? 90))
   || ((97 <=? n) && (n <=? 122)) || (n =? 95))%N.

Fixpoint all_chars (p : Ascii.ascii → bool) (k : string) : bool :=
  match k with
  | EmptyString => true
  | String c k' => p c && all_chars p k'
  end.

Definition flat_key (k : string) : bool :=
  negb (falsy k) && negb (String.eqb k "_id") && all_chars flat_char k.

Definition scalar (v : value) : bool :=
  match v with
  | VNull | VBool _ | VNum _ | VStr _ => true
  | VDate _ | VObj _ | VInherited _ => false
  end.

Definition flat_form (form : gmap string value) : Prop :=
  ∀ k v, form !! k = Some v → flat_key k = true ∧ scalar v = true.

(** [{ ...formData, phone, updatedAt: new Date() }] *)
Definition application_set (now : Z) (r : application_req)
  : gmap string value :=
  <["updatedAt" := VDate now]> (<["phone" := VStr (a_phone r)]> (a_form r)).

(** [updateOne(filter, { $set: upd }, { upsert: true })] on the document
    filed under the filter's key: the fields of [upd] are written over
    the document found, or over a new document made of the filter. *)
Definition set_fields (upd : gmap string value)
    (found : option (gmap string value)) (filter : gmap string value)
  : gmap string value :=
  match found with
  | Some doc => upd ∪ doc
  | None => upd ∪ filter
  end.

Definition application (now : Z) (r : application_req) (s : db)
  : response * db :=
  if falsy (a_phone r)
  then (error_json 400 "Phone required", s)
  else
    let doc := set_fields (application_set now r)
                 (applications s !! a_phone r)
                 {["phone" := VStr (a_phone r)]} in
    (json [("success", VBool true)],
     Db (shares s) (<[a_phone r := doc]> (applications s)) (payments s)).

(** *** POST /api/verify-payment *)

(** [const { reference, phone, upgrade } = req.body]; [upgrade] is
    whatever JSON value the client sent, [None] when it sent none. *)
Record verify_req : Type := VerifyReq {
  v_reference : string;
  v_phone : string;
  v_upgrade : option value
}.

Definition verify_payment (now : Z) (r : verify_req) (s : db)
  : prog (response * db) :=
  if falsy (v_reference r) || falsy (v_phone r)
  then Ret (error_json 400 "Missing reference or phone", s)
  else
    Verify (v_reference r) (fun reply =>
      match reply with
      | Threw => Ret (error_json 400 "Verification failed", s)
      | Status st =>
          if String.eqb st "success"
          then
            Ret (json [("success", VBool true)],
                 Db (shares s) (applications s)
                    (<[(v_phone r, v_reference r) :=
                         PaymentDoc "success" (truthy (v_upgrade r)) now]>
                       (payments s)))
          else Ret (error_json 400 "Payment not successful", s)
      end).

(** *** GET /api/eligibility *)

(** [findOne({ phone, status: 'success' })]: some document of the
    collection filed under this phone whose status is success. *)
Definition find_success (s : db) (phone : string)
  : option (string * string * payment_doc) :=
  List.find
    (fun kd => String.eqb (fst (fst kd)) phone
               && String.eqb (status (snd kd)) "success")
    (map_to_list (payments s)).

Definition eligibility (phone : string) (s : db) : response * db :=
  if falsy phone
  then (json [("canAccessForm", VBool false); ("paid", VBool false)], s)
  else
    let shares := shares s !! phone in
    let payment := find_success s phone in
    (json [("canAccessForm",
            VBool ((10 <=? num_or0 (from_option friends 0 shares))
                   && (2 <=? num_or0 (from_option groups 0 shares))));
           ("paid", VBool (is_some payment))], s).

(** *** POST /api/paystack-webhook *)

(** The data of a charge, as far as the handler reads it: the optional
    [metadata] and [customer] objects with their optional [phone], the
    [reference] and the [amount] (in kobo). *)
Record charge : Type := Charge {
  metadata : option (option string);
  customer : option (option string);
  reference : string;
  amount : Z
}.

(** What [JSON.parse(req.body.toString())] gives the handler:
    - it throws ([toString] or [JSON.parse]);
    - it yields [null], on which [event.event] throws;
    - it yields a value that is not [null] and whose [event] is not
      'charge.success';
    - it yields a 'charge.success' event whose [data] is [null] or missing,
      on which [data.metadata] throws;
    - it yields a 'charge.success' event with its data. *)
Inductive parsed : Type :=
  | Unparsable
  | ParsedNull
  | OtherValue
  | ChargeWithoutData
  | ChargeSuccess (d : charge).

(** The body the route is handed.  [app.use(express.json())] runs before the
    route's [express.raw] and has already put the parsed JSON in [req.body]
    (an object, [{}] when there was nothing to parse, or an array), so
    [express.raw] leaves it alone.  The [toString()] of an object is
    "[object Object]" (or is not callable, when the object has a [toString]
    field of its own): the handler's parse throws.  The [toString()] of an
    array is its elements joined by commas; [text] is what [JSON.parse]
    makes of that. *)
Inductive delivered : Type :=
  | ObjectBody
  | ArrayBody (text : parsed).

Definition handler_parse (b : delivered) : parsed :=
  match b with
  | ObjectBody => Unparsable
  | ArrayBody text => text
  end.

(** [o?.phone] *)
Definition opt_phone (o : option (option string)) : option string :=
  match o with
  | Some p => p
  | None => None
  end.

(** [a || b], where [None] is [undefined] or [null]. *)
Definition or_else (a b : option string) : option string :=
  match a with
  | Some p => if falsy p then b else a
  | None => b
  end.

(** [data.metadata?.phone || data.customer?.phone || null] *)
Definition resolve_phone (d : charge) : option string :=
  or_else (or_else (opt_phone (metadata d)) (opt_phone (customer d))) None.

(** The handler, from its parse on.  It is [async] and has no [try] around
    its reading of the event: where that throws, it has answered nothing and
    written nothing. *)
Definition paystack_webhook (now : Z) (p : parsed) (s : db) : outcome * db :=
  match p with
  | Unparsable => (Answered (Response 400 (Text "Invalid payload")), s)
  | ParsedNull => (Unanswered, s)
  | OtherValue => (Answered (Response 200 (Text "OK")), s)
  | ChargeWithoutData => (Unanswered, s)
  | ChargeSuccess data =>
      let s' :=
        match resolve_phone data with
        | Some phone =>
            if falsy phone then s
            else
              Db (shares s) (applications s)
                 (<[(phone, reference data) :=
                      PaymentDoc "success" (100000 <=? amount data) now]>
                    (payments s))
        | None => s
        end in
      (Answered (Response 200 (Text "OK")), s')
  end.

(** The route as it is mounted. *)
Definition webhook_route (now : Z) (b : delivered) (s : db) : outcome * db :=
  paystack_webhook now (handler_parse b) s.

(** *** The server: one request after the other *)

Inductive request : Type :=
  | PostShare (r : share_req)
  | GetShareStatus (phone : string)
  | PostApplication (r : application_req)
  | PostVerifyPayment (r : verify_req)
  | GetEligibility (phone : string)
  | PostWebhook (b : delivered).

(** A handler that always answers. *)
Definition answered (x : response * db) : outcome * db :=
  (Answered (fst x), snd x).

Definition handle (e : env) (q : request) (s : db) : outcome * db :=
  match q with
  | PostShare r => answered (share (now e) r s)
  | GetShareStatus phone => answered (share_status phone s)
  | PostApplication r => answered (application (now e) r s)
  | PostVerifyPayment r =>
      answered (fst (run (paystack e) (verify_payment (now e) r s)))
  | GetEligibility phone => answered (eligibility phone s)
  | PostWebhook b => webhook_route (now e) b s
  end.

(** The store after a list of requests, oldest first. *)
Fixpoint serve (qs : list (env * request)) (s : db) : db :=
  match qs with
  | [] => s
  | (e, q) :: qs' => serve qs' (snd (handle e q s))
  end.

End Persistent.

(** ** The in-memory backend *)

Module InMemory.

(** [db.shares[phone]] *)
Record share_rec : Type := Shares { friends : Z; groups : Z }.

(** [db.payments[reference]]; [verifiedAt] is absent until a successful
    verification. *)
Record payment : Type := Payment {
  phone : string;
  amount : Z;
  isUpgrade : bool;
  verified : bool;
  createdAt : Z;
  verifiedAt : option Z
}.

(** The module-level [db] ([db.users] is never read or written).
    [db.shares], [db.payments] and [db.applications] are object literals:
    the three maps hold their own properties, which the handlers create
    under keys for which the object has nothing truthy yet.  [assigned]
    holds what the handlers have assigned on the members these objects
    inherit: a pair [(m, q)] says that property [q] was set on the member
    found under the name [m].  The members are [Object.prototype] itself
    (under "__proto__"), its functions, and what a property assigned on
    [Object.prototype] makes every object inherit.  The handlers assign
    [NaN] to [friends] and [groups], [true] to [verified] and [upgraded],
    and a date to [verifiedAt]. *)
Record db : Type := Db {
  shares : gmap string share_rec;
  payments : gmap string payment;
  applications : gmap string (gmap string value);
  assigned : gset (string * string)
}.

Definition empty_db : db := Db ∅ ∅ ∅ ∅.

(** *** Looking a key up in a plain object *)

(** The functions of [Object.prototype]. *)
Definition function_names : list string :=
  ["constructor"; "toString"; "toLocaleString"; "valueOf"; "hasOwnProperty";
   "isPrototypeOf"; "propertyIsEnumerable"; "__defineGetter__";
   "__defineSetter__"; "__lookupGetter__"; "__lookupSetter__"].

(** The properties the handlers assign on a record they have looked up. *)
Definition assigned_names : list string :=
  ["friends"; "groups"; "verified"; "verifiedAt"; "upgraded"].

Definition among (names : list string) (k : string) : bool :=
  existsb (String.eqb k) names.

(** A key under which a plain object never inherits anything. *)
Definition plain (k : string) : bool :=
  negb (String.eqb k "__proto__" || among function_names k
        || among assigned_names k).

(** What [o[k]] evaluates to: an own property; [undefined]; the [NaN] that
    every object inherits once [friends] or [groups] was assigned on
    [Object.prototype] (falsy, but neither [null] nor [undefined]); or a
    truthy inherited member: [Object.prototype] under "__proto__", one of
    its functions, or the [true] or the date inherited once [verified],
    [upgraded] or [verifiedAt] was assigned on [Object.prototype]. *)
Inductive looked_up (A : Type) : Type :=
  | Own (a : A)
  | Undefined
  | InheritedNaN
  | Member (m : string).
Arguments Own {A} a.
Arguments Undefined {A}.
Arguments InheritedNaN {A}.
Arguments Member {A} m.

(** Property [q] was assigned on [Object.prototype]. *)
Definition polluted (s : db) (q : string) : bool :=
  bool_decide (("__proto__", q) ∈ assigned s).

Definition inherited {A} (s : db) (k : string) : looked_up A :=
  if String.eqb k "__proto__" || among function_names k then Member k
  else if among assigned_names k && polluted s k
  then if String.eqb k "friends" || String.eqb k "groups"
       then InheritedNaN else Member k
  else Undefined.

Definition lookup {A} (own : gmap string A) (s : db) (k : string)
  : looked_up A :=
  match own !! k with
  | Some a => Own a
  | None => inherited s k
  end.

(** Property [q] of the member [m] is set, on the member itself or on
    [Object.prototype] behind it. *)
Definition member_has (s : db) (m q : string) : bool :=
  bool_decide ((m, q) ∈ assigned s) || polluted s q.

(** [v.q = ...] for the member [v] found under [m].  On the inherited
    [true] the assignment is dropped (the module is not in strict mode).  A
    date assigned to [Object.prototype.verifiedAt] is a new object: what was
    assigned on the old one goes with it. *)
Definition assign (m q : string) (s : db) : db :=
  if String.eqb m "verified" || String.eqb m "upgraded" then s
  else
    Db (shares s) (payments s) (applications s)
       (if String.eqb m "__proto__" && String.eqb q "verifiedAt"
        then {[(m, q)]} ∪ filter (λ mq, fst mq ≠ "verifiedAt") (assigned s)
        else {[(m, q)]} ∪ assigned s).

(** A number as JavaScript has it where a counter is read. *)
Inductive jsnum : Type := Num (n : Z) | NaN.

(** [v.q] for a counter [q] of the member found under [m]: [undefined]
    ([None]) or [NaN]. *)
Definition member_counter (s : db) (m q : string) : option jsnum :=
  if member_has s m q then Some NaN else None.

(** [Math.min(x + 1, cap)] *)
Definition next_counter (cap : Z) (x : option jsnum) : jsnum :=
  match x with
  | Some (Num n) => Num (Z.min (n + 1) cap)
  | Some NaN | None => NaN
  end.

(** [x >= n] *)
Definition at_least (x : option jsnum) (n : Z) : bool :=
  match x with
  | Some (Num v) => n <=? v
  | Some NaN | None => false
  end.

(** *** The middleware [verifyWhatsAppShares] *)

(** [db.shares[phone] || { friends: 0, groups: 0 }]: a record, or a truthy
    member the object inherits. *)
Inductive user_shares : Type :=
  | Record_ (u : share_rec)
  | InheritedShares (m : string).

Record share_status : Type :=
  ShareStatus { canAccessForm : bool; userShares : user_shares }.

Definition shares_json (u : share_rec) : value :=
  VObj [("friends", VNum (friends u)); ("groups", VNum (groups u))].

(** Either the middleware answers itself, or it sets [req.shareStatus]
    and calls [next()]. *)
Definition verifyWhatsAppShares (body_phone query_phone : string) (s : db)
  : response + share_status :=
  let phone := str_or body_phone query_phone in
  if falsy phone
  then inl (error_json 400 "Phone number required")
  else
    match lookup (shares s) s phone with
    | Member m =>
        inr (ShareStatus
               (at_least (member_counter s m "friends") 10
                && at_least (member_counter s m "groups") 2)
               (InheritedShares m))
    | _ =>
        let userShares := default (Shares 0 0) (shares s !! phone) in
        inr (ShareStatus ((10 <=? friends userShares)
                          && (2 <=? groups userShares))
                         (Record_ userShares))
    end.

(** *** GET /api/eligibility *)

Record eligibility_req : Type :=
  EligibilityReq { e_body_phone : string; e_query_phone : string }.

(** [db.payments[phone]?.verified || false] *)
Definition hasPaid (s : db) (phone : string) : bool :=
  match lookup (payments s) s phone with
  | Own p => verified p
  | Undefined => false
  | InheritedNaN => polluted s "verified"
  | Member m => member_has s m "verified"
  end.

(** The [shares] field of the reply: [JSON.stringify] leaves a field out
    when its value is a function. *)
Definition shares_field (u : user_shares) : list (string * value) :=
  match u with
  | Record_ u => [("shares", shares_json u)]
  | InheritedShares m =>
      if among function_names m then []
      else if String.eqb m "verified" || String.eqb m "upgraded"
      then [("shares", VBool true)]
      else [("shares", VInherited m)]
  end.

Definition eligibility (r : eligibility_req) (s : db) : response * db :=
  match verifyWhatsAppShares (e_body_phone r) (e_query_phone r) s with
  | inl resp => (resp, s)
  | inr st =>
      (json ([("canAccessForm", VBool (canAccessForm st));
              ("paid", VBool (hasPaid s (e_query_phone r)))]
             ++ shares_field (userShares st)), s)
  end.

(** *** POST /api/share *)

Record share_req : Type := ShareReq { s_phone : string; s_type : string }.

Definition share (r : share_req) (s : db) : response * db :=
  if falsy (s_phone r) || falsy (s_type r)
  then (error_json 400 "Phone and type required", s)
  else
    match lookup (shares s) s (s_phone r) with
    | Member m =>
        (* no record is filed; [Math.min(x + 1, cap)] is NaN *)
        (Response 200 (Inherited m),
         if String.eqb (s_type r) "friend" then assign m "friends" s
         else if String.eqb (s_type r) "group" then assign m "groups" s
         else s)
    | _ =>
        let u := default (Shares 0 0) (shares s !! s_phone r) in
        let u :=
          if String.eqb (s_type r) "friend"
          then Shares (Z.min (friends u + 1) 10) (groups u)
          else if String.eqb (s_type r) "group"
          then Shares (friends u) (Z.min (groups u + 1) 2)
          else u in
        (json [("friends", VNum (friends u)); ("groups", VNum (groups u))],
         Db (<[s_phone r := u]> (shares s)) (payments s) (applications s)
            (assigned s))
    end.

(** *** GET /api/share-status *)

Definition get_share_status (phone : string) (s : db) : response * db :=
  (json [("friends", VNum 0); ("groups", VNum 0);
         ("phone", VStr (str_or phone "none"))], s).

(** *** POST /api/application *)

(** [a_phone] is [req.body.phone], [a_form] the other fields of the body. *)
Record application_req : Type := ApplicationReq {
  a_phone : string;
  a_query_phone : string;
  a_form : gmap string value
}.

(** [req.body] *)
Definition a_body (r : application_req) : gmap string value :=
  <["phone" := VStr (a_phone r)]> (a_form r).

Definition application (r : application_req) (s : db) : response * db :=
  match verifyWhatsAppShares (a_phone r) (a_query_phone r) s with
  | inl resp => (resp, s)
  | inr st =>
      if negb (canAccessForm st)
      then (error_json 403 "Complete WhatsApp sharing requirements first", s)
      else if falsy (a_phone r)
      then (error_json 400 "Phone required", s)
      else (json [("success", VBool true)],
            Db (shares s) (payments s)
               (<[a_phone r := a_body r]> (applications s)) (assigned s))
  end.

(** *** POST /api/init-payment *)

(** [i_amount] is the integer the body spells for [amount]; [isUpgrade]
    defaults to [false]; [i_uuid] is the result of [uuidv4()]. *)
Record init_req : Type := InitReq {
  i_phone : string;
  i_amount : Z;
  i_email : string;
  i_isUpgrade : bool;
  i_uuid : string
}.

(** [amount] is the double [JSON.parse] makes of the body's integer.  The
    payment is filed as soon as the provider's call resolves, before the
    reply is read: a reply without [data.data] makes the handler throw into
    its [catch] with the payment on file. *)
Definition init_payment (now : Z) (r : init_req) (s : db)
  : prog (response * db) :=
  let amount := round_double (i_amount r) in
  if falsy (i_phone r) || Z.eqb amount 0 || falsy (i_email r)
  then Ret (error_json 400 "Phone, amount and email required", s)
  else
    let reference := "PAY-" ++ i_uuid r in
    let amountInKobo := js_mul amount 100 in
    Initialize (i_email r) amountInKobo reference (fun reply =>
      match reply with
      | Resolves data =>
          let s' :=
            Db (shares s)
               (<[reference :=
                    Payment (i_phone r) amount (i_isUpgrade r)
                      false now None]> (payments s))
               (applications s) (assigned s) in
          match data with
          | Some (authorization_url, access_code) =>
              Ret (json [("authorization_url", VStr authorization_url);
                         ("access_code", VStr access_code);
                         ("reference", VStr reference)], s')
          | None => Ret (error_json 500 "Payment initialization failed", s')
          end
      | Rejects => Ret (error_json 500 "Payment initialization failed", s)
      end).

(** *** GET /api/verify-payment *)

(** [db.applications[phone].upgraded = true] on a record of the store. *)
Definition set_upgraded (phone : string)
    (apps : gmap string (gmap string value))
  : gmap string (gmap string value) :=
  alter (fun doc => <["upgraded" := VBool true]> doc) phone apps.

(** [if (payment.isUpgrade && db.applications[payment.phone])
       db.applications[payment.phone].upgraded = true] *)
Definition upgrade_application (payment : payment) (s : db) : db :=
  if isUpgrade payment
  then
    match lookup (applications s) s (phone payment) with
    | Own _ =>
        Db (shares s) (payments s)
           (set_upgraded (phone payment) (applications s)) (assigned s)
    | Member m => assign m "upgraded" s
    | Undefined | InheritedNaN => s
    end
  else s.

Definition verify_payment (now : Z) (reference : string) (s : db)
  : prog (response * db) :=
  if falsy reference
  then Ret (error_json 400 "Reference required", s)
  else
    match lookup (payments s) s reference with
    | Undefined | InheritedNaN =>
        Ret (error_json 404 "Payment not found", s)
    | Own payment =>
        Verify reference (fun reply =>
          match reply with
          | Threw => Ret (error_json 500 "Payment verification failed", s)
          | Status st =>
              if String.eqb st "success"
              then
                let stored :=
                  Payment (phone payment) (amount payment)
                    (isUpgrade payment) true (createdAt payment)
                    (Some now) in
                let s1 :=
                  Db (shares s) (<[reference := stored]> (payments s))
                     (applications s) (assigned s) in
                Ret (json [("success", VBool true);
                           ("amount", VNum (amount payment));
                           ("isUpgrade", VBool (isUpgrade payment))],
                     upgrade_application payment s1)
              else
                Ret (json [("success", VBool false);
                           ("message", VStr "Payment not completed")], s)
          end)
    | Member m =>
        (* the member has no [isUpgrade] and no [amount]: the reply has
           neither field *)
        Verify reference (fun reply =>
          match reply with
          | Threw => Ret (error_json 500 "Payment verification failed", s)
          | Status st =>
              if String.eqb st "success"
              then Ret (json [("success", VBool true)],
                        assign m "verifiedAt" (assign m "verified" s))
              else
                Ret (json [("success", VBool false);
                           ("message", VStr "Payment not completed")], s)
          end)
    end.

(** *** The server: one request after the other *)

Inductive request : Type :=
  | GetEligibility (r : eligibility_req)
  | PostShare (r : share_req)
  | GetShareStatus (phone : string)
  | PostApplication (r : application_req)
  | PostInitPayment (r : init_req)
  | GetVerifyPayment (reference : string).

Definition handle (e : env) (q : request) (s : db) : response * db :=
  match q with
  | GetEligibility r => eligibility r s
  | PostShare r => share r s
  | GetShareStatus phone => get_share_status phone s
  | PostApplication r => application r s
  | PostInitPayment r => fst (run (paystack e) (init_payment (now e) r s))
  | GetVerifyPayment reference =>
      fst (run (paystack e) (verify_payment (now e) reference s))
  end.

(** The store after a list of requests, oldest first. *)
Fixpoint serve (qs : list (env * request)) (s : db) : db :=
  match qs with
  | [] => s
  | (e, q) :: qs' => serve qs' (snd (handle e q s))
  end.

End InMemory.

(** ** The vocabulary of the specification *)

(** The two kinds of share event, with the string each has on the wire,
    its cap, and the counter of a pair [(friends, groups)] it advances. *)
Inductive kind : Type := KFriend | KGroup.

Definition kind_name (k : kind) : string :=
  match k with KFriend => "friend" | KGroup => "group" end.

Definition cap (k : kind) : Z :=
  match k with KFriend => 10 | KGroup => 2 end.

Definition counter (k : kind) (fg : Z * Z) : Z :=
  match k with KFriend => fst fg | KGroup => snd fg end.

Definition other_counter (k : kind) (fg : Z * Z) : Z :=
  match k with KFriend => snd fg | KGroup => fst fg end.

(** Both counters of a pair within their caps. *)
Definition within_caps (fg : Z * Z) : Prop :=
  0 ≤ fst fg ≤ 10 ∧ 0 ≤ snd fg ≤ 2.

(** The share record of a phone in the in-memory store, as a pair, with
    0/0 for a phone that has none. *)
Definition mem_shares (s : InMemory.db) (phone : string) : Z * Z :=
  match InMemory.shares s !! phone with
  | Some u => (InMemory.friends u, InMemory.groups u)
  | None => (0, 0)
  end.

(** Store invariants: every stored share record is within the caps. *)
Definition capped (s : Persistent.db) : Prop :=
  ∀ phone, within_caps (Persistent.find_shares s phone).

Definition mem_capped (s : InMemory.db) : Prop :=
  ∀ phone, within_caps (mem_shares s phone).

(** The eligibility predicate of the specification on a pair of counters. *)
Definition quota_met (fg : Z * Z) : Prop := 10 ≤ fst fg ∧ 2 ≤ snd fg.

(** A successful payment is on record for the phone (MongoDB backend). *)
Definition has_paid (s : Persistent.db) (phone : string) : Prop :=
  ∃ reference d,
    Persistent.payments s !! (phone, reference) = Some d
    ∧ Persistent.status d = "success".

(** A verified payment is on record for the phone (in-memory backend). *)
Definition mem_has_paid (s : InMemory.db) (phone : string) : Prop :=
  ∃ reference p,
    InMemory.payments s !! reference = Some p
    ∧ InMemory.phone p = phone ∧ InMemory.verified p = true.

(** *** A running example *)

Definition ada : string := "+2348030000001".

(** A provider that confirms every transaction. *)
Definition confirming : provider :=
  Provider (λ _, Status "success")
           (λ _, Resolves (Some ("https://checkout.paystack.com/0peioxfhpn",
                                 "0peioxfhpn"))).

(** A provider that reports every transaction as abandoned. *)
Definition abandoning : provider :=
  Provider (λ _, Status "abandoned")
           (λ _, Resolves (Some ("https://checkout.paystack.com/0peioxfhpn",
                                 "0peioxfhpn"))).

Definition at_noon (pv : provider) : env := Env 1700000000000 pv.

(** Ada starts a payment and has it verified (in-memory backend). *)
Definition ada_pays : list (env * InMemory.request) :=
  [(at_noon confirming,
    InMemory.PostInitPayment (InMemory.InitReq ada 5000 "ada@example.com" true "7f3c"));
   (at_noon confirming, InMemory.GetVerifyPayment "PAY-7f3c")].

(** Ada's ten friend shares and two group shares (in-memory backend). *)
Definition ada_shares : list (env * InMemory.request) :=
  replicate 10 (at_noon confirming,
                InMemory.PostShare (InMemory.ShareReq ada "friend"))
  ++ replicate 2 (at_noon confirming,
                  InMemory.PostShare (InMemory.ShareReq ada "group")).

(** Ada meets the quota, files her form and starts an upgrade payment
    (in-memory backend). *)
Definition ada_ready : list (env * InMemory.request) :=
  ada_shares
  ++ [(at_noon confirming,
       InMemory.PostApplication
         (InMemory.ApplicationReq ada "" {["name" := VStr "Ada"]}));
      (at_noon confirming,
       InMemory.PostInitPayment
         (InMemory.InitReq ada 5000 "ada@example.com" true "7f3c"))].

Definition ada_payment : InMemory.payment :=
  InMemory.Payment ada 5000 true false 1700000000000 None.

(** The MongoDB store after Ada filed a form that itself says
    [upgraded: true]. *)
Definition ada_upgraded : Persistent.db :=
  Persistent.serve
    [(at_noon confirming,
      Persistent.PostApplication
        (Persistent.ApplicationReq ada
           {["name" := VStr "Ada"; "upgraded" := VBool true]}))]
    Persistent.empty_db.

(** The MongoDB store after a verification of Ada's reference that the
    provider confirmed, with no upgrade asked for. *)
Definition ada_charged : Persistent.db :=
  Persistent.serve
    [(at_noon confirming,
      Persistent.PostVerifyPayment (Persistent.VerifyReq "PAY-7f3c" ada None))]
    Persistent.empty_db.

(** A charge of 50000 kobo for Ada's reference, with her phone in its
    metadata. *)
Definition ada_charge : Persistent.charge :=
  Persistent.Charge (Some (Some ada)) None "PAY-7f3c" 50000.

(** *** Invariants of the stores *)

(** Every payment document of the MongoDB store has status success. *)
Definition all_success (s : Persistent.db) : Prop :=
  ∀ key d, Persistent.payments s !! key = Some d →
           Persistent.status d = "success".

(** Every application document of the MongoDB store is filed under a
    non-empty phone, carries that phone in its [phone] field and has an
    [updatedAt] date. *)
Definition filed_under_phone (s : Persistent.db) : Prop :=
  ∀ phone doc, Persistent.applications s !! phone = Some doc →
    phone ≠ ""
    ∧ doc !! "phone" = Some (VStr phone)
    ∧ ∃ t, doc !! "updatedAt" = Some (VDate t).

(** Every payment of the in-memory store is filed under a reference made
    by [init_payment]. *)
Definition keyed_by_reference (s : InMemory.db) : Prop :=
  ∀ key p, InMemory.payments s !! key = Some p → ∃ uuid, key = "PAY-" ++ uuid.

(** A pair of counters is at most another, component by component. *)
Definition counters_le (a b : Z * Z) : Prop := fst a ≤ fst b ∧ snd a ≤ snd b.

(** Ada's ten friend shares and two group shares (MongoDB backend). *)
Definition ada_shares_mongo : list (env * Persistent.request) :=
  replicate 10 (at_noon confirming,
                Persistent.PostShare (Persistent.ShareReq ada "friend"))
  ++ replicate 2 (at_noon confirming,
                  Persistent.PostShare (Persistent.ShareReq ada "group")).

(** Every application request of the run sends a flat form without an
    [upgraded] field (MongoDB backend). *)
Definition sends_no_upgraded (qs : list (env * Persistent.request)) : Prop :=
  Forall (λ eq, match snd eq with
                | Persistent.PostApplication r =>
                    Persistent.flat_form (Persistent.a_form r)
                    ∧ Persistent.a_form r !! "upgraded" = None
                | _ => True
                end) qs.

(** No application document has an [upgraded] field (MongoDB backend). *)
Definition none_upgraded (s : Persistent.db) : Prop :=
  ∀ phone doc, Persistent.applications s !! phone = Some doc →
               doc !! "upgraded" = None.

(** Every application of the in-memory store is filed under a non-empty
    phone that meets the quota, and carries that phone in its [phone]
    field. *)
Definition admitted (s : InMemory.db) : Prop :=
  ∀ phone doc, InMemory.applications s !! phone = Some doc →
    phone ≠ ""
    ∧ quota_met (mem_shares s phone)
    ∧ doc !! "phone" = Some (VStr phone).

(** The property of a share record that holds the counter of a kind. *)
Definition counter_name (k : kind) : string :=
  match k with KFriend => "friends" | KGroup => "groups" end.

(** What [db.shares[phone].friends] (or [.groups]) evaluates to in the
    in-memory backend: the counter of the record on file, the counter of the
    member the object inherits under that name, or nothing to read. *)
Definition stored_counter (s : InMemory.db) (phone : string) (k : kind)
  : option InMemory.jsnum :=
  match InMemory.lookup (InMemory.shares s) s phone with
  | InMemory.Own u =>
      Some (InMemory.Num (counter k (InMemory.friends u, InMemory.groups u)))
  | InMemory.Member m => InMemory.member_counter s m (counter_name k)
  | InMemory.Undefined | InMemory.InheritedNaN => None
  end.

(** A counter read from the store is a number within the cap of its kind. *)
Definition counter_within_cap (k : kind) (x : option InMemory.jsnum) : Prop :=
  match x with
  | Some (InMemory.Num n) => 0 ≤ n ≤ cap k
  | Some InMemory.NaN => False
  | None => True
  end.

(** The record a share event of a kind writes, from the record it read. *)
Definition advanced (type : string) (u : InMemory.share_rec) : InMemory.share_rec :=
  if String.eqb type "friend"
  then InMemory.Shares (Z.min (InMemory.friends u + 1) 10) (InMemory.groups u)
  else if String.eqb type "group"
  then InMemory.Shares (InMemory.friends u) (Z.min (InMemory.groups u + 1) 2)
  else u.

(** ** Share quota *)

Lemma num_or0_id x : num_or0 x = x.
Proof. unfold num_or0. destruct (Z.eqb_spec x 0); congruence. Qed.

Lemma falsy_false s : falsy s = false ↔ s ≠ "".
Proof. destruct s; simpl; split; congruence. Qed.

Lemma falsy_true s : falsy s = true ↔ s = "".
Proof. destruct s; simpl; split; congruence. Qed.

Lemma find_shares_insert s phone f g t a p other :
  Persistent.find_shares
    (Persistent.Db (<[phone := Persistent.ShareDoc f g t]> (Persistent.shares s))
       a p) other
  = if decide (phone = other) then (f, g) else Persistent.find_shares s other.
Proof.
  unfold Persistent.find_shares. simpl.
  rewrite lookup_insert. by destruct (decide (phone = other)).
Qed.

Lemma share_capped now r s : capped s → capped (snd (Persistent.share now r s)).
Proof.
  intros Hs. unfold Persistent.share.
  destruct (falsy _ || negb _); [exact Hs |].
  pose proof (Hs (Persistent.s_phone r)) as Hp.
  destruct (Persistent.find_shares s (Persistent.s_phone r)) as [f g] eqn:E.
  intros other. simpl.
  rewrite find_shares_insert.
  destruct (decide _); [| apply Hs].
  destruct Hp as [Hf Hg]. simpl in Hf, Hg. rewrite !num_or0_id.
  split; simpl.
  - destruct (String.eqb _ "friend"); lia.
  - destruct (String.eqb _ "group"); lia.
Qed.

(** The store after the webhook differs from the store before in its
    payments at most. *)
Lemma webhook_route_frame t b s :
  Persistent.shares (snd (Persistent.webhook_route t b s)) = Persistent.shares s
  ∧ Persistent.applications (snd (Persistent.webhook_route t b s))
    = Persistent.applications s.
Proof.
  unfold Persistent.webhook_route, Persistent.paystack_webhook.
  destruct (Persistent.handler_parse b) as [| | | | d]; simpl; try done.
  destruct (Persistent.resolve_phone d) as [ph |]; [| done].
  by destruct (falsy ph).
Qed.

(** No handler but [share] writes the [shares] collection. *)
Lemma handle_shares e q s :
  (∃ r, q = Persistent.PostShare r)
  ∨ Persistent.shares (snd (Persistent.handle e q s)) = Persistent.shares s.
Proof.
  destruct q as [r | phone | r | r | phone | b]; simpl;
    [left; eauto | right ..].
  - unfold Persistent.share_status.
    destruct (falsy phone); [done |]. by destruct (_ !! _).
  - unfold Persistent.application. by destruct (falsy _).
  - unfold Persistent.verify_payment.
    destruct (falsy _ || falsy _); [done |]. simpl.
    destruct (on_verify _ _) as [| st]; [done |]. simpl.
    by destruct (String.eqb st "success").
  - unfold Persistent.eligibility. by destruct (falsy phone).
  - apply webhook_route_frame.
Qed.

Lemma capped_shares s s' :
  Persistent.shares s' = Persistent.shares s → capped s → capped s'.
Proof.
  intros E H phone. specialize (H phone).
  unfold Persistent.find_shares in *. by rewrite E.
Qed.

Lemma handle_capped e q s : capped s → capped (snd (Persistent.handle e q s)).
Proof.
  intros Hs. destruct (handle_shares e q s) as [[r ->] | E].
  - by apply share_capped.
  - by eapply capped_shares.
Qed.

Lemma serve_capped qs : ∀ s, capped s → capped (Persistent.serve qs s).
Proof.
  induction qs as [| [e q] qs IH]; intros s Hs; simpl; [done |].
  by apply IH, handle_capped.
Qed.

Lemma empty_capped : capped Persistent.empty_db.
Proof.
  intros phone. unfold Persistent.find_shares, within_caps. simpl.
  rewrite lookup_empty. simpl. lia.
Qed.

(** *** Plain keys and own properties of the in-memory store *)

Lemma plain_inherited {A} s k :
  InMemory.plain k = true → @InMemory.inherited A s k = InMemory.Undefined.
Proof.
  unfold InMemory.plain, InMemory.inherited. intros H.
  apply negb_true_iff in H.
  apply orb_false_iff in H as [H Hc]. rewrite H, Hc. done.
Qed.

(** What is inherited is never a record. *)
Lemma inherited_cases {A} s k :
  @InMemory.inherited A s k = InMemory.Undefined
  ∨ @InMemory.inherited A s k = InMemory.InheritedNaN
  ∨ @InMemory.inherited A s k = InMemory.Member k.
Proof.
  unfold InMemory.inherited.
  destruct (_ || _); [by right; right |].
  destruct (_ && _); [| by left].
  destruct (_ || _); [by right; left | by right; right].
Qed.

(** Under a plain key the object has its own property or nothing. *)
Lemma lookup_plain {A} (own : gmap string A) s k :
  InMemory.plain k = true →
  InMemory.lookup own s k
  = match own !! k with
    | Some a => InMemory.Own a
    | None => InMemory.Undefined
    end.
Proof.
  intros H. unfold InMemory.lookup. destruct (own !! k); [done |].
  by apply plain_inherited.
Qed.

Lemma lookup_own {A} (own : gmap string A) s k a :
  own !! k = Some a → InMemory.lookup own s k = InMemory.Own a.
Proof. intros H. unfold InMemory.lookup. by rewrite H. Qed.

(** A member is found only where the object has no property of its own. *)
Lemma lookup_member {A} (own : gmap string A) s k m :
  InMemory.lookup own s k = InMemory.Member m → own !! k = None ∧ m = k.
Proof.
  unfold InMemory.lookup, InMemory.inherited.
  destruct (own !! k); [done |].
  destruct (_ || _); [intros [= <-]; done |].
  destruct (_ && _); [| done].
  destruct (_ || _); [done |]. by intros [= <-].
Qed.

Lemma plain_not_member {A} (own : gmap string A) s k m :
  InMemory.plain k = true → InMemory.lookup own s k ≠ InMemory.Member m.
Proof. intros H. rewrite lookup_plain by done. by destruct (own !! k). Qed.

(** Assigning on an inherited member leaves the three dictionaries' own
    properties alone. *)
Lemma assign_own m q s :
  InMemory.shares (InMemory.assign m q s) = InMemory.shares s
  ∧ InMemory.payments (InMemory.assign m q s) = InMemory.payments s
  ∧ InMemory.applications (InMemory.assign m q s) = InMemory.applications s.
Proof. unfold InMemory.assign. by destruct (_ || _). Qed.

Lemma mem_shares_insert s phone u p a g other :
  mem_shares (InMemory.Db (<[phone := u]> (InMemory.shares s)) p a g) other
  = if decide (phone = other)
    then (InMemory.friends u, InMemory.groups u)
    else mem_shares s other.
Proof.
  unfold mem_shares. simpl.
  rewrite lookup_insert. by destruct (decide (phone = other)).
Qed.

Lemma mem_shares_default s phone :
  mem_shares s phone
  = (InMemory.friends (default (InMemory.Shares 0 0) (InMemory.shares s !! phone)),
     InMemory.groups (default (InMemory.Shares 0 0) (InMemory.shares s !! phone))).
Proof. unfold mem_shares. by destruct (_ !! _). Qed.

Lemma mem_shares_eq s s' phone :
  InMemory.shares s' = InMemory.shares s → mem_shares s' phone = mem_shares s phone.
Proof. intros E. unfold mem_shares. by rewrite E. Qed.

(** A share event either leaves the own share records alone (it is refused,
    or it lands on an inherited member) or files the advanced record. *)
Lemma mem_share_cases r s :
  InMemory.shares (snd (InMemory.share r s)) = InMemory.shares s
  ∨ (falsy (InMemory.s_phone r) = false
     ∧ snd (InMemory.share r s)
       = InMemory.Db
           (<[InMemory.s_phone r :=
                advanced (InMemory.s_type r)
                  (default (InMemory.Shares 0 0)
                     (InMemory.shares s !! InMemory.s_phone r))]>
              (InMemory.shares s))
           (InMemory.payments s) (InMemory.applications s)
           (InMemory.assigned s)).
Proof.
  unfold InMemory.share, advanced.
  destruct (falsy (InMemory.s_phone r)) eqn:Hp; simpl; [by left |].
  destruct (falsy (InMemory.s_type r)); simpl; [by left |].
  destruct (InMemory.lookup _ _ _) as [u | | | m]; simpl.
  1-3: by right.
  left. destruct (String.eqb _ "friend"); [apply assign_own |].
  destruct (String.eqb _ "group"); [apply assign_own | done].
Qed.

(** An accepted share event for a phone under which nothing is inherited. *)
Lemma mem_share_plain phone type s :
  falsy phone = false → falsy type = false →
  InMemory.plain phone = true →
  InMemory.share (InMemory.ShareReq phone type) s
  = let u := advanced type
               (default (InMemory.Shares 0 0) (InMemory.shares s !! phone)) in
    (json [("friends", VNum (InMemory.friends u));
           ("groups", VNum (InMemory.groups u))],
     InMemory.Db (<[phone := u]> (InMemory.shares s))
       (InMemory.payments s) (InMemory.applications s) (InMemory.assigned s)).
Proof.
  intros Hp Ht Hk. unfold InMemory.share, advanced. simpl.
  rewrite Hp, Ht. simpl. rewrite lookup_plain by done.
  by destruct (InMemory.shares s !! phone).
Qed.

Lemma advanced_within type u :
  within_caps (InMemory.friends u, InMemory.groups u) →
  within_caps (InMemory.friends (advanced type u),
               InMemory.groups (advanced type u)).
Proof.
  intros [Hf Hg]. simpl in Hf, Hg. unfold advanced, within_caps.
  destruct (String.eqb _ "friend"); [simpl; lia |].
  destruct (String.eqb _ "group"); simpl; lia.
Qed.

Lemma mem_share_capped r s : mem_capped s → mem_capped (snd (InMemory.share r s)).
Proof.
  intros Hs. destruct (mem_share_cases r s) as [E | [_ E]].
  - intros phone. rewrite (mem_shares_eq _ _ _ E). apply Hs.
  - rewrite E. intros other. rewrite mem_shares_insert.
    destruct (decide _); [| apply Hs].
    apply advanced_within.
    rewrite <- mem_shares_default. apply Hs.
Qed.

(** What a verification leaves of the own share records and applications'
    keys. *)
Lemma upgrade_application_shares p s :
  InMemory.shares (InMemory.upgrade_application p s) = InMemory.shares s.
Proof.
  unfold InMemory.upgrade_application.
  destruct (InMemory.isUpgrade p); [| done].
  destruct (InMemory.lookup _ _ _); try done. apply assign_own.
Qed.

Lemma upgrade_application_payments p s :
  InMemory.payments (InMemory.upgrade_application p s) = InMemory.payments s.
Proof.
  unfold InMemory.upgrade_application.
  destruct (InMemory.isUpgrade p); [| done].
  destruct (InMemory.lookup _ _ _); try done. apply assign_own.
Qed.

Lemma mem_handle_shares e q s :
  (∃ r, q = InMemory.PostShare r)
  ∨ InMemory.shares (snd (InMemory.handle e q s)) = InMemory.shares s.
Proof.
  destruct q as [r | r | phone | r | r | reference]; simpl;
    [right | left; eauto | right ..].
  - unfold InMemory.eligibility. by destruct (InMemory.verifyWhatsAppShares _ _ _).
  - done.
  - unfold InMemory.application.
    destruct (InMemory.verifyWhatsAppShares _ _ _) as [| st]; [done |].
    destruct (negb _); [done |]. by destruct (falsy _).
  - unfold InMemory.init_payment.
    destruct (_ || _); [done |]. simpl.
    by destruct (on_initialize _ _) as [| [[url acc] |]].
  - unfold InMemory.verify_payment.
    destruct (falsy reference); [done |].
    destruct (InMemory.lookup _ _ _) as [pay | | | m]; try done; simpl;
      (destruct (on_verify _ _) as [| st]; [done |]); simpl;
      (destruct (String.eqb st "success"); [| done]); simpl.
    + by rewrite upgrade_application_shares.
    + destruct (assign_own m "verifiedAt" (InMemory.assign m "verified" s))
        as [-> _]. apply assign_own.
Qed.

Lemma mem_handle_capped e q s :
  mem_capped s → mem_capped (snd (InMemory.handle e q s)).
Proof.
  intros Hs. destruct (mem_handle_shares e q s) as [[r ->] | E].
  - by apply mem_share_capped.
  - intros phone. rewrite (mem_shares_eq _ _ _ E). apply Hs.
Qed.

Lemma mem_serve_capped qs : ∀ s, mem_capped s → mem_capped (InMemory.serve qs s).
Proof.
  induction qs as [| [e q] qs IH]; intros s Hs; simpl; [done |].
  by apply IH, mem_handle_capped.
Qed.

Lemma mem_empty_capped : mem_capped InMemory.empty_db.
Proof.
  intros phone. unfold mem_shares, within_caps. simpl.
  rewrite lookup_empty. simpl. lia.
Qed.

(** Under a plain phone, what the handlers read is the own record. *)
Lemma stored_counter_plain s phone k :
  InMemory.plain phone = true →
  stored_counter s phone k
  = match InMemory.shares s !! phone with
    | Some _ => Some (InMemory.Num (counter k (mem_shares s phone)))
    | None => None
    end.
Proof.
  intros H. unfold stored_counter, mem_shares. rewrite lookup_plain by done.
  by destruct (InMemory.shares s !! phone).
Qed.

(** C3. In the in-memory backend the invariant fails for a phone that names
    a member every object inherits.  One friend share for the phone
    "constructor" on the empty store is answered 200; it files no share
    record; the counter the handlers read for that phone afterwards is NaN,
    which is not within 0..10.  The MongoDB backend, on the same request,
    stores 1/0. *)
Theorem share_on_inherited_key_breaks_caps :
  let q := InMemory.PostShare (InMemory.ShareReq "constructor" "friend") in
  let s' := InMemory.serve [(at_noon confirming, q)] InMemory.empty_db in
  fst (InMemory.handle (at_noon confirming) q InMemory.empty_db)
  = Response 200 (Inherited "constructor")
  ∧ InMemory.shares s' !! "constructor" = None
  ∧ stored_counter InMemory.empty_db "constructor" KFriend = None
  ∧ stored_counter s' "constructor" KFriend = Some InMemory.NaN
  ∧ ¬ counter_within_cap KFriend (stored_counter s' "constructor" KFriend)
  ∧ Persistent.find_shares
      (Persistent.serve
         [(at_noon confirming,
           Persistent.PostShare (Persistent.ShareReq "constructor" "friend"))]
         Persistent.empty_db) "constructor" = (1, 0).
Proof.
  intros q s'.
  assert (E : stored_counter s' "constructor" KFriend = Some InMemory.NaN)
    by (vm_compute; reflexivity).
  split; [reflexivity |]. split; [reflexivity |].
  split; [vm_compute; reflexivity |]. split; [exact E |].
  split; [rewrite E; simpl; tauto |].
  vm_compute; reflexivity.
Qed.

(** What one accepted share event does to the counters of its phone. *)
Lemma share_counters now phone k s :
  falsy phone = false →
  Persistent.find_shares
    (snd (Persistent.share now (Persistent.ShareReq phone (kind_name k)) s))
    phone
  = match k with
    | KFriend => (Z.min (fst (Persistent.find_shares s phone) + 1) 10,
                  snd (Persistent.find_shares s phone))
    | KGroup => (fst (Persistent.find_shares s phone),
                 Z.min (snd (Persistent.find_shares s phone) + 1) 2)
    end.
Proof.
  intros Hp. unfold Persistent.share. simpl. rewrite Hp.
  destruct (Persistent.find_shares s phone) as [f g] eqn:E.
  destruct k; simpl; rewrite find_shares_insert, decide_True by done;
    by rewrite num_or0_id.
Qed.

Lemma share_others now r s other :
  other ≠ Persistent.s_phone r →
  Persistent.shares (snd (Persistent.share now r s)) !! other
  = Persistent.shares s !! other.
Proof.
  intros Hne. unfold Persistent.share.
  destruct (_ || _); [done |].
  destruct (Persistent.find_shares _ _) as [f g]. simpl.
  by rewrite lookup_insert_ne.
Qed.

Lemma mem_share_counters phone k s :
  falsy phone = false →
  InMemory.plain phone = true →
  mem_shares (snd (InMemory.share (InMemory.ShareReq phone (kind_name k)) s))
    phone
  = match k with
    | KFriend => (Z.min (fst (mem_shares s phone) + 1) 10,
                  snd (mem_shares s phone))
    | KGroup => (fst (mem_shares s phone),
                 Z.min (snd (mem_shares s phone) + 1) 2)
    end.
Proof.
  intros Hp Hk. rewrite mem_share_plain by (done || by destruct k).
  rewrite (mem_shares_default s phone). cbv zeta. cbn [snd].
  rewrite mem_shares_insert, decide_True by done.
  by destruct k.
Qed.

(** In the in-memory store a share event at the cap writes back the very
    record it read. *)
Lemma mem_share_at_cap phone k s :
  falsy phone = false →
  InMemory.plain phone = true →
  counter k (mem_shares s phone) = cap k →
  snd (InMemory.share (InMemory.ShareReq phone (kind_name k)) s) = s.
Proof.
  intros Hp Hk Hc. rewrite mem_share_plain by (done || by destruct k).
  cbv zeta. cbn [snd].
  unfold mem_shares in Hc.
  destruct s as [sh pay apps asg]. simpl in *.
  destruct (sh !! phone) as [[f g] |] eqn:E; simpl in *.
  - destruct k; simpl in *; subst; f_equal; apply insert_id; by rewrite E.
  - destruct k; simpl in Hc; discriminate.
Qed.

(** C8. In the in-memory backend a share event for a phone that names a
    member every object inherits does not advance the counter by one.  For
    the phone "toString" on the empty store the group counter the handlers
    read is absent before the event and NaN after it, and is still NaN after
    five events, where the claim has 1 and 2; no share record is ever filed.
    The MongoDB backend, on the same five requests, stores 0/2. *)
Theorem share_on_inherited_key_does_not_advance :
  let q := (at_noon confirming,
            InMemory.PostShare (InMemory.ShareReq "toString" "group")) in
  let s1 := InMemory.serve [q] InMemory.empty_db in
  let s5 := InMemory.serve (replicate 5 q) InMemory.empty_db in
  stored_counter InMemory.empty_db "toString" KGroup = None
  ∧ stored_counter s1 "toString" KGroup = Some InMemory.NaN
  ∧ stored_counter s5 "toString" KGroup = Some InMemory.NaN
  ∧ InMemory.shares s1 !! "toString" = None
  ∧ InMemory.shares s5 !! "toString" = None
  ∧ Persistent.find_shares
      (Persistent.serve
         (replicate 5
            (at_noon confirming,
             Persistent.PostShare (Persistent.ShareReq "toString" "group")))
         Persistent.empty_db) "toString" = (0, 2).
Proof.
  intros q s1 s5.
  split; [vm_compute; reflexivity |].
  split; [vm_compute; reflexivity |].
  split; [vm_compute; reflexivity |].
  split; [reflexivity |]. split; [reflexivity |].
  vm_compute; reflexivity.
Qed.

(** ** The webhook *)




(** ** Verification in the MongoDB backend *)

(** The document a successful verification writes. *)
Lemma verify_payment_success t r s pv :
  falsy (Persistent.v_reference r) = false →
  falsy (Persistent.v_phone r) = false →
  on_verify pv (Persistent.v_reference r) = Status "success" →
  run pv (Persistent.verify_payment t r s)
  = ((json [("success", VBool true)],
      Persistent.Db (Persistent.shares s) (Persistent.applications s)
        (<[(Persistent.v_phone r, Persistent.v_reference r) :=
             Persistent.PaymentDoc "success" (truthy (Persistent.v_upgrade r)) t]>
           (Persistent.payments s))),
     [Persistent.v_reference r]).
Proof.
  intros Hr Hp Hv. unfold Persistent.verify_payment.
  rewrite Hr, Hp. simpl. by rewrite Hv.
Qed.

(** C10. In the MongoDB backend a successful POST /api/verify-payment
    writes, for the request's (phone, reference), a payment document whose
    upgrade flag is the boolean coercion of the [upgrade] field of the
    request body: whatever the two stores held before, the same request
    writes the same flag. *)
Theorem verify_upgrade_is_request_upgrade
    (t : Z) (r : Persistent.verify_req) (s1 s2 : Persistent.db) (pv : provider) :
  falsy (Persistent.v_reference r) = false →
  falsy (Persistent.v_phone r) = false →
  on_verify pv (Persistent.v_reference r) = Status "success" →
  let written s :=
    Persistent.payments (snd (fst (run pv (Persistent.verify_payment t r s))))
      !! (Persistent.v_phone r, Persistent.v_reference r) in
  Persistent.upgrade <$> written s1 = Some (truthy (Persistent.v_upgrade r))
  ∧ Persistent.upgrade <$> written s2 = Some (truthy (Persistent.v_upgrade r)).
Proof.
  intros Hr Hp Hv written. subst written. cbv beta.
  rewrite !verify_payment_success by done. simpl.
  by rewrite !lookup_insert_eq.
Qed.

Lemma verify_upgrade_is_request_upgrade_witness :
  let r := Persistent.VerifyReq "PAY-7f3c" ada (Some (VStr "yes")) in
  let written s :=
    Persistent.payments
      (snd (fst (run confirming (Persistent.verify_payment 9 r s))))
      !! (ada, "PAY-7f3c") in
  Persistent.payments ada_charged !! (ada, "PAY-7f3c")
  = Some (Persistent.PaymentDoc "success" false 1700000000000)
  ∧ Persistent.upgrade <$> written Persistent.empty_db = Some true
  ∧ Persistent.upgrade <$> written ada_charged = Some true.
Proof.
  intros r. split; [vm_compute; reflexivity |].
  exact (verify_upgrade_is_request_upgrade 9 r Persistent.empty_db ada_charged
           confirming eq_refl eq_refl eq_refl).
Defined.

(** ** Eligibility *)

Lemma find_success_spec s phone :
  is_some (Persistent.find_success s phone) = true ↔ has_paid s phone.
Proof.
  unfold Persistent.find_success, has_paid. split.
  - destruct (List.find _ _) as [[[ph reference] d] |] eqn:E; [| done].
    intros _. apply find_some in E as [Hin Hb]. simpl in Hb.
    apply andb_prop in Hb as [Hph Hst].
    apply String.eqb_eq in Hph, Hst. subst ph.
    exists reference, d. split; [| done].
    by apply elem_of_map_to_list, list_elem_of_In.
  - intros (reference & d & Hl & Hst).
    destruct (List.find _ _) as [kd |] eqn:E; [done |].
    apply elem_of_map_to_list, list_elem_of_In in Hl.
    pose proof (find_none _ _ E _ Hl) as Hb. simpl in Hb.
    rewrite String.eqb_refl, Hst in Hb. discriminate.
Qed.

(** X16. For a non-empty phone the MongoDB backend's GET /api/eligibility
    computes the predicate of the specification (quota met; a successful
    payment on record for the phone) and leaves the store alone. *)
Lemma eligibility_spec phone s :
  falsy phone = false →
  ∃ can paid,
    Persistent.eligibility phone s
    = (json [("canAccessForm", VBool can); ("paid", VBool paid)], s)
    ∧ (can = true ↔ quota_met (Persistent.find_shares s phone))
    ∧ (paid = true ↔ has_paid s phone).
Proof.
  intros Hp. unfold Persistent.eligibility. rewrite Hp.
  eexists _, _. split; [reflexivity |]. split.
  - unfold quota_met, Persistent.find_shares. rewrite !num_or0_id.
    destruct (Persistent.shares s !! phone) as [d |]; simpl.
    + rewrite andb_true_iff, !Z.leb_le. lia.
    + split; [discriminate | lia].
  - apply find_success_spec.
Qed.

(** What the middleware sets for a phone under which nothing is
    inherited. *)
Lemma verifyWhatsAppShares_plain body_phone query_phone s :
  let phone := str_or body_phone query_phone in
  falsy phone = false →
  InMemory.plain phone = true →
  InMemory.verifyWhatsAppShares body_phone query_phone s
  = let u := default (InMemory.Shares 0 0) (InMemory.shares s !! phone) in
    inr (InMemory.ShareStatus
           ((10 <=? InMemory.friends u) && (2 <=? InMemory.groups u))
           (InMemory.Record_ u)).
Proof.
  intros phone Hp Hk. unfold InMemory.verifyWhatsAppShares. fold phone.
  rewrite Hp, lookup_plain by done.
  by destruct (InMemory.shares s !! phone).
Qed.

(** The middleware admits a phone only on its own share record. *)
Lemma verifyWhatsAppShares_quota body_phone query_phone s st :
  InMemory.verifyWhatsAppShares body_phone query_phone s = inr st →
  let phone := str_or body_phone query_phone in
  falsy phone = false
  ∧ (InMemory.canAccessForm st = true ↔ quota_met (mem_shares s phone)).
Proof.
  unfold InMemory.verifyWhatsAppShares.
  set (phone := str_or body_phone query_phone).
  destruct (falsy phone) eqn:Hp; [done |].
  intros E. simpl. split; [done |].
  assert (Hq : (10 <=? InMemory.friends
                         (default (InMemory.Shares 0 0)
                            (InMemory.shares s !! phone)))
               && (2 <=? InMemory.groups
                           (default (InMemory.Shares 0 0)
                              (InMemory.shares s !! phone))) = true
               ↔ quota_met (mem_shares s phone)).
  { unfold quota_met. rewrite mem_shares_default. simpl.
    rewrite andb_true_iff, !Z.leb_le. lia. }
  destruct (InMemory.lookup _ _ _) as [u | | | m] eqn:L;
    injection E as <-; simpl; try exact Hq.
  apply lookup_member in L as [L _].
  unfold InMemory.member_counter.
  split.
  - by destruct (InMemory.member_has s m "friends").
  - unfold quota_met, mem_shares. rewrite L. simpl. lia.
Qed.

(** X25. For a phone under which no object inherits anything, the in-memory
    backend computes [canAccessForm] the same way, for the phone of the body
    or else of the query string; it returns the share record and leaves the
    store alone. *)
Lemma mem_eligibility_can_access r s :
  let phone := str_or (InMemory.e_body_phone r) (InMemory.e_query_phone r) in
  falsy phone = false →
  InMemory.plain phone = true →
  ∃ can paid,
    InMemory.eligibility r s
    = (json [("canAccessForm", VBool can); ("paid", VBool paid);
             ("shares",
              InMemory.shares_json
                (default (InMemory.Shares 0 0) (InMemory.shares s !! phone)))],
       s)
    ∧ (can = true ↔ quota_met (mem_shares s phone)).
Proof.
  intros phone Hp Hk. unfold InMemory.eligibility.
  rewrite verifyWhatsAppShares_plain by done. fold phone. simpl.
  eexists _, _. split; [reflexivity |].
  unfold quota_met. rewrite mem_shares_default. simpl.
  rewrite andb_true_iff, !Z.leb_le. lia.
Qed.

(** C2 (the defect). In the in-memory backend Ada starts a payment and has it
    verified: the store then holds a verified payment for her phone, filed
    under its reference, yet GET /api/eligibility for her phone answers
    paid = false, because it looks the payment up under the phone. *)
Theorem mem_eligibility_misses_verified_payment :
  let s := InMemory.serve ada_pays InMemory.empty_db in
  InMemory.payments s !! "PAY-7f3c"
  = Some (InMemory.Payment ada 5000 true true 1700000000000 (Some 1700000000000))
  ∧ mem_has_paid s ada
  ∧ field "paid" (fst (InMemory.eligibility (InMemory.EligibilityReq "" ada) s))
    = Some (VBool false)
  ∧ snd (InMemory.eligibility (InMemory.EligibilityReq "" ada) s) = s.
Proof.
  assert (E : InMemory.payments (InMemory.serve ada_pays InMemory.empty_db)
              !! "PAY-7f3c"
              = Some (InMemory.Payment ada 5000 true true 1700000000000
                        (Some 1700000000000))) by (vm_compute; reflexivity).
  cbv zeta. split; [exact E |]. split; [| split].
  - exists "PAY-7f3c", (InMemory.Payment ada 5000 true true 1700000000000
                          (Some 1700000000000)). by rewrite E.
  - vm_compute. reflexivity.
  - reflexivity.
Qed.

(** ** The application gate *)

(** X23. The in-memory backend refuses the form with 403 while the quota
    is not met, and stores nothing. *)
Lemma mem_application_gate r s :
  let phone := str_or (InMemory.a_phone r) (InMemory.a_query_phone r) in
  falsy phone = false →
  ¬ quota_met (mem_shares s phone) →
  InMemory.application r s
  = (error_json 403 "Complete WhatsApp sharing requirements first", s).
Proof.
  intros phone Hp Hq. unfold InMemory.application.
  destruct (InMemory.verifyWhatsAppShares _ _ _) as [resp | st] eqn:E.
  - unfold InMemory.verifyWhatsAppShares in E. fold phone in E.
    rewrite Hp in E. by destruct (InMemory.lookup _ _ _).
  - apply verifyWhatsAppShares_quota in E as [_ E]. fold phone in E.
    destruct (InMemory.canAccessForm st); [| done].
    exfalso. apply Hq, E. done.
Qed.

(** In the in-memory backend a request that changes the application records
    met the quota for the phone it files the record under. *)
Lemma mem_application_only_when_eligible r s :
  InMemory.applications (snd (InMemory.application r s))
    ≠ InMemory.applications s →
  quota_met (mem_shares s (InMemory.a_phone r))
  ∧ fst (InMemory.application r s) = json [("success", VBool true)].
Proof.
  unfold InMemory.application.
  destruct (InMemory.verifyWhatsAppShares _ _ _) as [resp | st] eqn:E; [done |].
  apply verifyWhatsAppShares_quota in E as [_ E].
  destruct (InMemory.canAccessForm st); simpl; [| done].
  destruct (falsy (InMemory.a_phone r)) eqn:Hp; [done |].
  intros _. split; [| done].
  unfold str_or in E. rewrite Hp in E. by apply E.
Qed.

(** After her tenth friend share and second group share Ada is admitted by
    the in-memory backend, and not one share earlier. *)
Example ada_is_admitted :
  let m := InMemory.serve ada_shares InMemory.empty_db in
  let early := InMemory.serve (tail ada_shares) InMemory.empty_db in
  let r := InMemory.ApplicationReq ada "" {["name" := VStr "Ada"]} in
  field "canAccessForm"
    (fst (InMemory.eligibility (InMemory.EligibilityReq "" ada) m))
  = Some (VBool true)
  ∧ fst (InMemory.application r m) = json [("success", VBool true)]
  ∧ code (fst (InMemory.application r early)) = 403
  ∧ snd (InMemory.application r early) = early.
Proof. cbv zeta. repeat apply conj; vm_compute; reflexivity. Qed.

(** The MongoDB backend files the form of any non-empty phone. *)
Lemma application_upserts t r s :
  falsy (Persistent.a_phone r) = false →
  Persistent.application t r s
  = (json [("success", VBool true)],
     Persistent.Db (Persistent.shares s)
       (<[Persistent.a_phone r :=
            Persistent.set_fields (Persistent.application_set t r)
              (Persistent.applications s !! Persistent.a_phone r)
              {["phone" := VStr (Persistent.a_phone r)]}]>
          (Persistent.applications s))
       (Persistent.payments s)).
Proof. intros Hp. unfold Persistent.application. by rewrite Hp. Qed.

(** C1 (the defect). In the MongoDB backend, with no share on record for
    her phone, Ada is told canAccessForm = false, and her POST
    /api/application is nevertheless answered success = true (HTTP 200) and
    creates her application record. *)
Theorem application_ignores_eligibility :
  let s := Persistent.empty_db in
  let r := Persistent.ApplicationReq ada {["name" := VStr "Ada"]} in
  field "canAccessForm" (fst (Persistent.eligibility ada s)) = Some (VBool false)
  ∧ fst (Persistent.application 1700000000000 r s)
    = Response 200 (Json [("success", VBool true)])
  ∧ Persistent.applications s !! ada = None
  ∧ ∃ doc,
      Persistent.applications (snd (Persistent.application 1700000000000 r s))
        !! ada = Some doc
      ∧ doc !! "name" = Some (VStr "Ada").
Proof.
  cbv zeta. split; [reflexivity |]. split; [reflexivity |].
  split; [reflexivity |].
  rewrite application_upserts by reflexivity. simpl.
  rewrite lookup_insert_eq. eexists. split; [reflexivity |].
  vm_compute. reflexivity.
Qed.

(** ** Verification *)

(** What the upgrade of a verified payment does to the application
    records: it marks the record on file for the payment's phone, if the
    payment is an upgrade and there is one. *)
Lemma upgrade_application_applications p s :
  InMemory.applications (InMemory.upgrade_application p s)
  = if InMemory.isUpgrade p
       && is_some (InMemory.applications s !! InMemory.phone p)
    then InMemory.set_upgraded (InMemory.phone p) (InMemory.applications s)
    else InMemory.applications s.
Proof.
  unfold InMemory.upgrade_application, InMemory.lookup.
  destruct (InMemory.isUpgrade p); [| done]. simpl.
  destruct (InMemory.applications s !! InMemory.phone p); [done |]. simpl.
  destruct (inherited_cases (A := gmap string value) s (InMemory.phone p))
    as [-> | [-> | ->]]; try done.
  apply assign_own.
Qed.

(** What the in-memory handler does when the provider confirms a payment
    that is on record. *)
Lemma mem_verify_success t reference s p pv :
  falsy reference = false →
  InMemory.payments s !! reference = Some p →
  on_verify pv reference = Status "success" →
  run pv (InMemory.verify_payment t reference s)
  = ((json [("success", VBool true);
            ("amount", VNum (InMemory.amount p));
            ("isUpgrade", VBool (InMemory.isUpgrade p))],
      InMemory.upgrade_application p
        (InMemory.Db (InMemory.shares s)
           (<[reference :=
                InMemory.Payment (InMemory.phone p) (InMemory.amount p)
                  (InMemory.isUpgrade p) true (InMemory.createdAt p) (Some t)]>
              (InMemory.payments s))
           (InMemory.applications s) (InMemory.assigned s))),
     [reference]).
Proof.
  intros Hr Hl Hv. unfold InMemory.verify_payment.
  rewrite Hr, (lookup_own _ _ _ _ Hl). simpl. by rewrite Hv.
Qed.

(** C4, as stated, fails in the MongoDB backend: Ada has an application and
    a payment on record, the provider confirms, and the answer carries
    neither the amount nor the upgrade flag, while her application record
    gets no [upgraded] field. *)
Lemma verify_reply_lacks_amount_and_upgrade :
  let r := Persistent.VerifyReq "PAY-7f3c" ada (Some (VBool true)) in
  let s := Persistent.serve
             [(at_noon confirming,
               Persistent.PostApplication
                 (Persistent.ApplicationReq ada {["name" := VStr "Ada"]}));
              (at_noon confirming, Persistent.PostVerifyPayment r)]
             Persistent.empty_db in
  let out := fst (run confirming (Persistent.verify_payment 1700000000001 r s)) in
  Persistent.payments s !! (ada, "PAY-7f3c")
  = Some (Persistent.PaymentDoc "success" true 1700000000000)
  ∧ field "success" (fst out) = Some (VBool true)
  ∧ field "amount" (fst out) = None
  ∧ field "isUpgrade" (fst out) = None
  ∧ ∃ doc, Persistent.applications (snd out) !! ada = Some doc
           ∧ doc !! "upgraded" = None.
Proof.
  cbv zeta. split; [vm_compute; reflexivity |].
  split; [reflexivity |]. split; [reflexivity |]. split; [reflexivity |].
  eexists. split; vm_compute; reflexivity.
Qed.

(** C4 (amended). When the provider reports success for a non-empty
    reference: the in-memory GET /api/verify-payment, for a reference with a
    payment on record, marks that payment verified, stamps [verifiedAt],
    leaves the other payments alone, sets [upgraded] on the application
    record of the payment's phone if [isUpgrade] was set at initiation and
    such a record exists (and leaves the application records alone
    otherwise), and answers success = true with the amount and the upgrade
    flag; the MongoDB POST /api/verify-payment files the payment of the
    request's (phone, reference) with status success and the time of the
    call, and answers success = true alone. *)
Theorem verify_success_effects
    (t : Z) (reference : string) (pv : provider)
    (m : InMemory.db) (p : InMemory.payment)
    (s : Persistent.db) (phone : string) (upgrade : option value) :
  falsy reference = false →
  falsy phone = false →
  InMemory.payments m !! reference = Some p →
  on_verify pv reference = Status "success" →
  let mout := fst (run pv (InMemory.verify_payment t reference m)) in
  let out := fst (run pv (Persistent.verify_payment t
                            (Persistent.VerifyReq reference phone upgrade) s)) in
  (InMemory.payments (snd mout) !! reference
   = Some (InMemory.Payment (InMemory.phone p) (InMemory.amount p)
             (InMemory.isUpgrade p) true (InMemory.createdAt p) (Some t))
   ∧ (∀ other, other ≠ reference →
      InMemory.payments (snd mout) !! other = InMemory.payments m !! other)
   ∧ (InMemory.isUpgrade p = true →
      ∀ doc, InMemory.applications m !! InMemory.phone p = Some doc →
             InMemory.applications (snd mout) !! InMemory.phone p
             = Some (<["upgraded" := VBool true]> doc))
   ∧ (InMemory.isUpgrade p = false
      ∨ InMemory.applications m !! InMemory.phone p = None →
      InMemory.applications (snd mout) = InMemory.applications m)
   ∧ fst mout = json [("success", VBool true);
                      ("amount", VNum (InMemory.amount p));
                      ("isUpgrade", VBool (InMemory.isUpgrade p))])
  ∧ (Persistent.payments (snd out) !! (phone, reference)
     = Some (Persistent.PaymentDoc "success" (truthy upgrade) t)
     ∧ fst out = json [("success", VBool true)]).
Proof.
  intros Hr Hp Hl Hv mout out. subst mout out.
  rewrite (mem_verify_success t reference m p pv) by done.
  rewrite verify_payment_success by done. cbn [fst snd].
  rewrite upgrade_application_payments, upgrade_application_applications.
  simpl.
  repeat split.
  - by rewrite lookup_insert_eq.
  - intros other Hne. by rewrite lookup_insert_ne.
  - intros Hup doc Hdoc. rewrite Hup, Hdoc. simpl.
    unfold InMemory.set_upgraded. rewrite lookup_alter_eq. by rewrite Hdoc.
  - intros [Hup | Hnone].
    + by rewrite Hup.
    + rewrite Hnone. simpl. by rewrite andb_false_r.
  - by rewrite lookup_insert_eq.
Qed.

Lemma verify_success_effects_witness :
  let m := InMemory.serve ada_ready InMemory.empty_db in
  let mout :=
    fst (run confirming (InMemory.verify_payment 1700000000001 "PAY-7f3c" m)) in
  let out :=
    fst (run confirming
           (Persistent.verify_payment 1700000000001
              (Persistent.VerifyReq "PAY-7f3c" ada (Some (VBool true)))
              Persistent.empty_db)) in
  InMemory.payments m !! "PAY-7f3c" = Some ada_payment
  ∧ InMemory.payments (snd mout) !! "PAY-7f3c"
    = Some (InMemory.Payment ada 5000 true true 1700000000000
              (Some 1700000000001))
  ∧ InMemory.applications (snd mout) !! ada
    = Some (<["upgraded" := VBool true]>
              (<["phone" := VStr ada]> {["name" := VStr "Ada"]}))
  ∧ fst mout = json [("success", VBool true); ("amount", VNum 5000);
                     ("isUpgrade", VBool true)]
  ∧ Persistent.payments (snd out) !! (ada, "PAY-7f3c")
    = Some (Persistent.PaymentDoc "success" true 1700000000001)
  ∧ fst out = json [("success", VBool true)].
Proof.
  intros m mout out.
  assert (Hl : InMemory.payments m !! "PAY-7f3c" = Some ada_payment)
    by (vm_compute; reflexivity).
  assert (Ha : InMemory.applications m !! ada
               = Some (<["phone" := VStr ada]> {["name" := VStr "Ada"]}))
    by (vm_compute; reflexivity).
  pose proof (verify_success_effects 1700000000001 "PAY-7f3c" confirming m
                ada_payment Persistent.empty_db ada (Some (VBool true))
                eq_refl eq_refl Hl eq_refl) as H.
  cbv zeta in H. fold mout out in H.
  destruct H as [(Hpay & _ & Hup & _ & Hresp) (Hdoc & Hout)].
  split; [exact Hl |]. split; [exact Hpay |].
  split; [exact (Hup eq_refl _ Ha) |]. split; [exact Hresp |].
  split; [exact Hdoc | exact Hout].
Defined.

(** C6, as stated, fails in the MongoDB backend: with a payment on record
    for the reference and the provider reporting "abandoned", the answer is
    HTTP 400 with an error and no [success] field. *)
Lemma verify_failure_reply_has_no_success_field :
  let r := Persistent.VerifyReq "PAY-7f3c" ada None in
  let s := Persistent.serve
             [(at_noon confirming, Persistent.PostVerifyPayment r)]
             Persistent.empty_db in
  let out := fst (run abandoning (Persistent.verify_payment 1700000000001 r s)) in
  Persistent.payments s !! (ada, "PAY-7f3c")
  = Some (Persistent.PaymentDoc "success" false 1700000000000)
  ∧ code (fst out) = 400
  ∧ field "success" (fst out) = None
  ∧ field "error" (fst out) = Some (VStr "Payment not successful").
Proof. cbv zeta. repeat apply conj; vm_compute; reflexivity. Qed.

(** C6 (amended). When the provider reports a status other than success for
    a non-empty reference, neither backend changes its store, so the payment
    on record stays as it was and a later verification or webhook can still
    resolve it.  The in-memory GET /api/verify-payment, for a reference with
    a payment on record, answers success = false; the MongoDB POST
    /api/verify-payment answers HTTP 400 with the error "Payment not
    successful". *)
Theorem verify_failure_keeps_store
    (t : Z) (reference st : string) (pv : provider)
    (m : InMemory.db) (p : InMemory.payment)
    (s : Persistent.db) (phone : string) (upgrade : option value) :
  falsy reference = false →
  falsy phone = false →
  InMemory.payments m !! reference = Some p →
  on_verify pv reference = Status st →
  st ≠ "success" →
  fst (run pv (InMemory.verify_payment t reference m))
  = (json [("success", VBool false); ("message", VStr "Payment not completed")],
     m)
  ∧ fst (run pv (Persistent.verify_payment t
                   (Persistent.VerifyReq reference phone upgrade) s))
    = (error_json 400 "Payment not successful", s).
Proof.
  intros Hr Hp Hl Hv Hst. apply String.eqb_neq in Hst.
  unfold InMemory.verify_payment, Persistent.verify_payment. simpl.
  rewrite Hr, Hp, (lookup_own _ _ _ _ Hl). simpl. rewrite Hv. simpl.
  by rewrite Hst.
Qed.

Lemma verify_failure_keeps_store_witness :
  let m := InMemory.serve ada_ready InMemory.empty_db in
  let s := Persistent.Db ∅ ∅
             {[(ada, "PAY-7f3c") := Persistent.PaymentDoc "success" false 5]} in
  InMemory.payments m !! "PAY-7f3c" = Some ada_payment
  ∧ fst (run abandoning (InMemory.verify_payment 1700000000001 "PAY-7f3c" m))
    = (json [("success", VBool false);
             ("message", VStr "Payment not completed")], m)
  ∧ fst (run abandoning
           (Persistent.verify_payment 1700000000001
              (Persistent.VerifyReq "PAY-7f3c" ada None) s))
    = (error_json 400 "Payment not successful", s).
Proof.
  intros m s.
  assert (Hl : InMemory.payments m !! "PAY-7f3c" = Some ada_payment)
    by (vm_compute; reflexivity).
  split; [exact Hl |].
  apply (verify_failure_keeps_store 1700000000001 "PAY-7f3c" "abandoned"
           abandoning m ada_payment s ada None eq_refl eq_refl Hl eq_refl).
  discriminate.
Defined.




(** The in-memory handler does find a payment under a name every object
    inherits: the provider is asked about the reference "constructor" and,
    once it confirms, the answer is 200 and the inherited member is marked
    verified, so that the phone "constructor" counts as paid. *)
Example verify_inherited_reference :
  let out := run confirming
               (InMemory.verify_payment 9 "constructor" InMemory.empty_db) in
  InMemory.payments InMemory.empty_db !! "constructor" = None
  ∧ fst (fst out) = json [("success", VBool true)]
  ∧ snd out = ["constructor"]
  ∧ InMemory.hasPaid (snd (fst out)) "constructor" = true.
Proof. cbv zeta. repeat apply conj; vm_compute; reflexivity. Qed.

(** ** Resubmission and the upgraded flag *)

(** In the MongoDB backend form data that carries its own [upgraded] field
    overwrites the flag. *)
Lemma resubmission_can_clear_upgraded :
  let r := Persistent.ApplicationReq ada
             {["name" := VStr "Ada O."; "upgraded" := VBool false]} in
  let out := Persistent.application 1700000000001 r ada_upgraded in
  (∃ doc, Persistent.applications ada_upgraded !! ada = Some doc
          ∧ doc !! "upgraded" = Some (VBool true))
  ∧ fst out = json [("success", VBool true)]
  ∧ ∃ doc, Persistent.applications (snd out) !! ada = Some doc
           ∧ doc !! "upgraded" = Some (VBool false).
Proof.
  cbv zeta. split; [| split; [reflexivity |]].
  - eexists. split; vm_compute; reflexivity.
  - eexists. split; vm_compute; reflexivity.
Qed.

(** C9 (the defect). In the in-memory backend the request body replaces the
    record, and a flag set by an earlier verification goes with it: Ada
    meets the quota, files her form, pays for the upgrade and has the
    payment verified, so that her record has upgraded = true; she then
    resubmits her form, is answered success = true, and her record has no
    [upgraded] field any more. *)
Theorem mem_resubmission_drops_upgraded :
  let m := InMemory.serve
             (ada_ready
              ++ [(at_noon confirming, InMemory.GetVerifyPayment "PAY-7f3c")])
             InMemory.empty_db in
  let r := InMemory.ApplicationReq ada "" {["name" := VStr "Ada O."]} in
  (∃ doc, InMemory.applications m !! ada = Some doc
          ∧ doc !! "upgraded" = Some (VBool true))
  ∧ fst (InMemory.application r m) = json [("success", VBool true)]
  ∧ ∃ doc, InMemory.applications (snd (InMemory.application r m)) !! ada
           = Some doc
           ∧ doc !! "upgraded" = None.
Proof.
  cbv zeta. split; [| split].
  - eexists. split; vm_compute; reflexivity.
  - vm_compute. reflexivity.
  - eexists. split; vm_compute; reflexivity.
Qed.

Lemma application_set_lookup t r k :
  k ≠ "updatedAt" → k ≠ "phone" →
  Persistent.application_set t r !! k = Persistent.a_form r !! k.
Proof.
  intros H1 H2. unfold Persistent.application_set.
  by rewrite !lookup_insert_ne.
Qed.

Lemma flat_form_singleton k v :
  Persistent.flat_key k = true → Persistent.scalar v = true →
  Persistent.flat_form {[k := v]}.
Proof.
  intros Hk Hv k' v' H. apply lookup_singleton_Some in H as [<- <-]. done.
Qed.

(** ** Further properties of the handlers *)

(** *** Counters only grow *)


Lemma mem_serve_app qs1 : ∀ qs2 s,
  InMemory.serve (qs1 ++ qs2) s = InMemory.serve qs2 (InMemory.serve qs1 s).
Proof.
  induction qs1 as [| [e q] qs1 IH]; intros qs2 s; simpl; [done |]. apply IH.
Qed.

Lemma counters_le_refl a : counters_le a a.
Proof. unfold counters_le. lia. Qed.

Lemma counters_le_trans a b c :
  counters_le a b → counters_le b c → counters_le a c.
Proof. unfold counters_le. lia. Qed.



Lemma advanced_grows type u :
  within_caps (InMemory.friends u, InMemory.groups u) →
  counters_le (InMemory.friends u, InMemory.groups u)
    (InMemory.friends (advanced type u), InMemory.groups (advanced type u)).
Proof.
  intros [Hf Hg]. simpl in Hf, Hg. unfold advanced, counters_le.
  destruct (String.eqb _ "friend"); [simpl; lia |].
  destruct (String.eqb _ "group"); simpl; lia.
Qed.

Lemma mem_handle_grows e q s phone :
  mem_capped s →
  counters_le (mem_shares s phone)
    (mem_shares (snd (InMemory.handle e q s)) phone).
Proof.
  intros Hs.
  assert (G : ∀ s', InMemory.shares s' = InMemory.shares s →
                    counters_le (mem_shares s phone) (mem_shares s' phone)).
  { intros s' E. rewrite (mem_shares_eq _ _ _ E). apply counters_le_refl. }
  destruct (mem_handle_shares e q s) as [[r ->] | E]; [| by apply G].
  simpl. destruct (mem_share_cases r s) as [E | [_ E]]; [by apply G |].
  rewrite E, mem_shares_insert.
  destruct (decide _) as [<- |]; [| apply counters_le_refl].
  rewrite (mem_shares_default s). apply advanced_grows.
  rewrite <- mem_shares_default. apply Hs.
Qed.

Lemma mem_serve_grows qs : ∀ s phone,
  mem_capped s →
  counters_le (mem_shares s phone) (mem_shares (InMemory.serve qs s) phone).
Proof.
  induction qs as [| [e q] qs IH]; intros s phone Hs; simpl.
  - apply counters_le_refl.
  - eapply counters_le_trans; [by apply mem_handle_grows |].
    by apply IH, mem_handle_capped.
Qed.


(** X2. In-memory backend: along any run from the empty store, the friends
    and groups counters of every phone under which no object inherits
    anything never decrease; what the handlers read for such a phone is its
    own record, or nothing while it has none. *)
Theorem mem_counters_never_decrease
    (before later : list (env * InMemory.request)) (phone : string) :
  InMemory.plain phone = true →
  let m := InMemory.serve before InMemory.empty_db in
  let m' := InMemory.serve (before ++ later) InMemory.empty_db in
  counters_le (mem_shares m phone) (mem_shares m' phone)
  ∧ (∀ k, stored_counter m' phone k
          = if bool_decide (is_Some (InMemory.shares m' !! phone))
            then Some (InMemory.Num (counter k (mem_shares m' phone)))
            else None)
  ∧ (is_Some (InMemory.shares m !! phone) →
     is_Some (InMemory.shares m' !! phone)).
Proof.
  intros Hk m m'. subst m m'. rewrite mem_serve_app.
  set (m := InMemory.serve before InMemory.empty_db).
  split; [apply mem_serve_grows, mem_serve_capped, mem_empty_capped |].
  split.
  - intros k. rewrite stored_counter_plain by done.
    destruct (InMemory.shares _ !! phone) eqn:E.
    + by rewrite bool_decide_eq_true_2.
    + rewrite bool_decide_eq_false_2; [done |]. by intros [? ?].
  - clearbody m. revert m.
    induction later as [| [e q] later IH]; intros m Hm; simpl; [done |].
    apply IH.
    destruct (mem_handle_shares e q m) as [[r ->] | ->]; [| done].
    simpl. destruct (mem_share_cases r m) as [-> | [_ ->]]; [done |].
    simpl. rewrite lookup_insert. by destruct (decide _).
Qed.

Lemma mem_counters_never_decrease_witness :
  let m := InMemory.serve (take 3 ada_shares) InMemory.empty_db in
  let m' := InMemory.serve (take 3 ada_shares ++ drop 3 ada_shares)
              InMemory.empty_db in
  InMemory.plain ada = true
  ∧ mem_shares m ada = (3, 0)
  ∧ mem_shares m' ada = (10, 2)
  ∧ counters_le (mem_shares m ada) (mem_shares m' ada)
  ∧ stored_counter m' ada KGroup = Some (InMemory.Num 2).
Proof.
  intros m m'.
  destruct (mem_counters_never_decrease (take 3 ada_shares)
              (drop 3 ada_shares) ada eq_refl) as (Hle & Hread & _).
  fold m m' in Hle, Hread.
  assert (E : mem_shares m' ada = (10, 2)) by (vm_compute; reflexivity).
  split; [reflexivity |]. split; [vm_compute; reflexivity |].
  split; [exact E |]. split; [exact Hle |].
  rewrite (Hread KGroup), E. vm_compute. reflexivity.
Defined.

(** *** Admission is never revoked *)




(** The middleware answers by itself only when there is no phone. *)
Lemma verifyWhatsAppShares_answers body_phone query_phone s resp :
  InMemory.verifyWhatsAppShares body_phone query_phone s = inl resp →
  falsy (str_or body_phone query_phone) = true.
Proof.
  unfold InMemory.verifyWhatsAppShares.
  destruct (falsy (str_or body_phone query_phone)); [done |].
  by destruct (InMemory.lookup _ _ _).
Qed.

(** The in-memory backend files the form of a phone that meets the quota. *)
Lemma mem_application_accepted r s :
  falsy (InMemory.a_phone r) = false →
  quota_met (mem_shares s (InMemory.a_phone r)) →
  InMemory.application r s
  = (json [("success", VBool true)],
     InMemory.Db (InMemory.shares s) (InMemory.payments s)
       (<[InMemory.a_phone r := InMemory.a_body r]> (InMemory.applications s))
       (InMemory.assigned s)).
Proof.
  intros Hp Hq. unfold InMemory.application.
  assert (Hs : str_or (InMemory.a_phone r) (InMemory.a_query_phone r)
               = InMemory.a_phone r) by (unfold str_or; by rewrite Hp).
  destruct (InMemory.verifyWhatsAppShares _ _ _) as [resp | st] eqn:E.
  - apply verifyWhatsAppShares_answers in E. congruence.
  - apply verifyWhatsAppShares_quota in E as [_ E]. rewrite Hs in E.
    apply E in Hq. by rewrite Hq, Hp.
Qed.

(** X4. In-memory backend: once the quota of a phone is met in a run from
    the empty store, POST /api/application with that phone in its body is
    accepted after any further requests: it answers success = true and
    files the request body under the phone. *)
Theorem mem_application_accepted_for_good
    (before later : list (env * InMemory.request))
    (r : InMemory.application_req) :
  falsy (InMemory.a_phone r) = false →
  quota_met (mem_shares (InMemory.serve before InMemory.empty_db)
               (InMemory.a_phone r)) →
  let m := InMemory.serve (before ++ later) InMemory.empty_db in
  fst (InMemory.application r m) = json [("success", VBool true)]
  ∧ InMemory.applications (snd (InMemory.application r m))
      !! InMemory.a_phone r = Some (InMemory.a_body r).
Proof.
  intros Hp [Hf Hg] m.
  assert (Em : m = InMemory.serve later
                     (InMemory.serve before InMemory.empty_db))
    by apply mem_serve_app.
  destruct (mem_serve_grows later (InMemory.serve before InMemory.empty_db)
              (InMemory.a_phone r) (mem_serve_capped before _ mem_empty_capped))
    as [Lf Lg].
  rewrite <- Em in Lf, Lg.
  assert (Hq : quota_met (mem_shares m (InMemory.a_phone r)))
    by (unfold quota_met; lia).
  rewrite mem_application_accepted by done. simpl.
  split; [done |]. by rewrite lookup_insert_eq.
Qed.

Lemma mem_application_accepted_for_good_witness :
  let r := InMemory.ApplicationReq ada "" {["name" := VStr "Ada"]} in
  let m := InMemory.serve (ada_shares ++ ada_pays) InMemory.empty_db in
  quota_met (mem_shares (InMemory.serve ada_shares InMemory.empty_db) ada)
  ∧ fst (InMemory.application r m) = json [("success", VBool true)]
  ∧ InMemory.applications (snd (InMemory.application r m)) !! ada
    = Some (InMemory.a_body r).
Proof.
  intros r m.
  assert (H : quota_met
                (mem_shares (InMemory.serve ada_shares InMemory.empty_db) ada))
    by (vm_compute; split; discriminate).
  split; [exact H |].
  exact (mem_application_accepted_for_good ada_shares ada_pays r eq_refl H).
Defined.

(** *** Payments of the MongoDB backend *)

(** [resolve_phone] never yields an empty phone. *)
Lemma resolve_phone_truthy d p :
  Persistent.resolve_phone d = Some p → falsy p = false.
Proof.
  unfold Persistent.resolve_phone, Persistent.or_else.
  destruct (Persistent.opt_phone (Persistent.metadata d)) as [a |];
    [destruct (falsy a) eqn:Ha |];
    try (destruct (Persistent.opt_phone (Persistent.customer d)) as [b |];
         [destruct (falsy b) eqn:Hb |]);
    rewrite ?Ha; intros [= <-]; done.
Qed.

(** What the webhook files when its parse yields a successful charge with
    a resolvable phone. *)
Lemma webhook_files t b d s phone :
  Persistent.handler_parse b = Persistent.ChargeSuccess d →
  Persistent.resolve_phone d = Some phone →
  Persistent.webhook_route t b s
  = (Answered (Response 200 (Text "OK")),
     Persistent.Db (Persistent.shares s) (Persistent.applications s)
       (<[(phone, Persistent.reference d) :=
            Persistent.PaymentDoc "success" (100000 <=? Persistent.amount d) t]>
          (Persistent.payments s))).
Proof.
  intros Hb Hph. unfold Persistent.webhook_route, Persistent.paystack_webhook.
  rewrite Hb, Hph. by rewrite (resolve_phone_truthy _ _ Hph).
Qed.

(** A request leaves the payments alone or files one successful payment
    under a non-empty phone. *)
Lemma handle_payments e q s :
  Persistent.payments (snd (Persistent.handle e q s)) = Persistent.payments s
  ∨ ∃ phone reference u t,
      phone ≠ ""
      ∧ Persistent.payments (snd (Persistent.handle e q s))
        = <[(phone, reference) := Persistent.PaymentDoc "success" u t]>
            (Persistent.payments s).
Proof.
  destruct q as [r | phone | r | r | phone | b]; simpl.
  - left. unfold Persistent.share. destruct (_ || _); [done |].
    by destruct (Persistent.find_shares _ _).
  - left. unfold Persistent.share_status.
    destruct (falsy phone); [done |]. by destruct (_ !! _).
  - left. unfold Persistent.application. by destruct (falsy _).
  - unfold Persistent.verify_payment.
    destruct (falsy (Persistent.v_reference r)) eqn:Hr; [by left |].
    destruct (falsy (Persistent.v_phone r)) eqn:Hp; [by left |]. simpl.
    destruct (on_verify _ _) as [| st]; [by left |]. simpl.
    destruct (String.eqb st "success"); [| by left].
    right. simpl. apply falsy_false in Hp. eauto 10.
  - left. unfold Persistent.eligibility. by destruct (falsy phone).
  - unfold Persistent.webhook_route, Persistent.paystack_webhook.
    destruct (Persistent.handler_parse b) as [| | | | d]; try by left.
    simpl.
    destruct (Persistent.resolve_phone d) as [ph |]; [| by left].
    destruct (falsy ph) eqn:Hp; [by left |].
    right. simpl. apply falsy_false in Hp. eauto 10.
Qed.

Lemma handle_all_success e q s :
  all_success s → all_success (snd (Persistent.handle e q s)).
Proof.
  intros Hs key d.
  destruct (handle_payments e q s) as [-> | (ph & rf & u & t & _ & ->)];
    [apply Hs |].
  rewrite lookup_insert. destruct (decide _); [| apply Hs].
  by intros [= <-].
Qed.

Lemma handle_has_paid e q s phone :
  has_paid s phone → has_paid (snd (Persistent.handle e q s)) phone.
Proof.
  intros (reference & d & Hl & Hst). unfold has_paid.
  destruct (handle_payments e q s) as [-> | (ph & rf & u & t & _ & ->)];
    [by eauto |].
  destruct (decide ((ph, rf) = (phone, reference))) as [E | Hne].
  - exists reference, (Persistent.PaymentDoc "success" u t).
    rewrite E. by rewrite lookup_insert_eq.
  - exists reference, d. by rewrite lookup_insert_ne.
Qed.

Lemma serve_has_paid qs : ∀ s phone,
  has_paid s phone → has_paid (Persistent.serve qs s) phone.
Proof.
  induction qs as [| [e q] qs IH]; intros s phone H; simpl; [done |].
  by apply IH, handle_has_paid.
Qed.

Lemma eligibility_paid_iff phone s :
  field "paid" (fst (Persistent.eligibility phone s)) = Some (VBool true)
  ↔ phone ≠ "" ∧ has_paid s phone.
Proof.
  unfold Persistent.eligibility.
  destruct (falsy phone) eqn:Hp.
  - apply falsy_true in Hp. simpl. split; [discriminate | tauto].
  - apply falsy_false in Hp. unfold field. simpl.
    rewrite <- find_success_spec.
    destruct (is_some _); split; try done. by intros [_ ?].
Qed.

(** X5. MongoDB backend: in every store reached from the empty one, every
    payment document has status success; no request ever files a pending or
    failed payment. *)
Theorem payments_all_success (qs : list (env * Persistent.request)) :
  all_success (Persistent.serve qs Persistent.empty_db).
Proof.
  assert (G : ∀ s, all_success s → all_success (Persistent.serve qs s)).
  { induction qs as [| [e q] qs IH]; intros s Hs; simpl; [done |].
    by apply IH, handle_all_success. }
  apply G. intros key d. simpl. by rewrite lookup_empty.
Qed.

(** X6. MongoDB backend: once GET /api/eligibility answers paid = true for a
    phone, it answers so after any further requests, from any store. *)
Theorem paid_never_revoked
    (s : Persistent.db) (qs : list (env * Persistent.request)) (phone : string) :
  field "paid" (fst (Persistent.eligibility phone s)) = Some (VBool true) →
  field "paid" (fst (Persistent.eligibility phone (Persistent.serve qs s)))
  = Some (VBool true).
Proof.
  rewrite !eligibility_paid_iff. intros [Hp H]. split; [done |].
  by apply serve_has_paid.
Qed.

Lemma paid_never_revoked_witness :
  field "paid" (fst (Persistent.eligibility ada ada_charged)) = Some (VBool true)
  ∧ field "paid"
      (fst (Persistent.eligibility ada
              (Persistent.serve
                 [(at_noon abandoning,
                   Persistent.PostVerifyPayment
                     (Persistent.VerifyReq "PAY-7f3c" ada None));
                  (at_noon confirming,
                   Persistent.PostApplication
                     (Persistent.ApplicationReq ada ∅))]
                 ada_charged)))
    = Some (VBool true).
Proof.
  assert (H : field "paid" (fst (Persistent.eligibility ada ada_charged))
              = Some (VBool true)) by (vm_compute; reflexivity).
  split; [exact H |].
  exact (paid_never_revoked ada_charged _ ada H).
Defined.

(** X7. MongoDB backend: the phone a webhook event is filed under is the
    [phone] of its metadata when that is a non-empty string, and otherwise
    the [phone] of its customer when that is a non-empty string; there is
    no other way for an event to have a phone. *)
Theorem resolve_phone_prefers_metadata (d : Persistent.charge) (p : string) :
  Persistent.resolve_phone d = Some p
  ↔ p ≠ ""
    ∧ (Persistent.opt_phone (Persistent.metadata d) = Some p
       ∨ ((Persistent.opt_phone (Persistent.metadata d) = None
           ∨ Persistent.opt_phone (Persistent.metadata d) = Some "")
          ∧ Persistent.opt_phone (Persistent.customer d) = Some p)).
Proof.
  unfold Persistent.resolve_phone, Persistent.or_else.
  destruct (Persistent.opt_phone (Persistent.metadata d)) as [a |];
    [destruct (falsy a) eqn:Ha |];
    (destruct (Persistent.opt_phone (Persistent.customer d)) as [b |];
     [destruct (falsy b) eqn:Hb |]);
    rewrite ?Ha; rewrite ?falsy_true, ?falsy_false in *; subst;
    (split;
     [ intros E; try discriminate E; injection E as <-; split; eauto
     | intros [Hp [E | [[E' | E'] E]]]; congruence ]).
Qed.

(** X8. MongoDB backend: a webhook request whose body, as the handler
    itself parses it, is a [charge.success] event with a resolvable phone is
    answered 200 and files, under (phone, reference), a payment with status
    success whose upgrade flag says whether the amount is at least 100000
    kobo; it leaves the shares, the applications and every other payment
    alone, and GET /api/eligibility for that phone then answers
    paid = true.  (On the route as it is mounted the handler's parse yields
    an event only for a body that is a JSON array; a body that is a JSON
    object is answered 400 and files nothing.) *)
Theorem webhook_files_successful_charge
    (t : Z) (b : Persistent.delivered) (d : Persistent.charge)
    (s : Persistent.db) (phone : string) :
  Persistent.handler_parse b = Persistent.ChargeSuccess d →
  Persistent.resolve_phone d = Some phone →
  let s' := snd (Persistent.webhook_route t b s) in
  let key := (phone, Persistent.reference d) in
  status_of (fst (Persistent.webhook_route t b s)) = Some 200
  ∧ Persistent.payments s' !! key
    = Some (Persistent.PaymentDoc "success"
              (bool_decide (100000 ≤ Persistent.amount d)) t)
  ∧ (∀ other, other ≠ key →
     Persistent.payments s' !! other = Persistent.payments s !! other)
  ∧ Persistent.shares s' = Persistent.shares s
  ∧ Persistent.applications s' = Persistent.applications s
  ∧ field "paid" (fst (Persistent.eligibility phone s')) = Some (VBool true)
  ∧ snd (Persistent.webhook_route t Persistent.ObjectBody s) = s.
Proof.
  intros Hb Hph s' key. subst s' key.
  rewrite (webhook_files t b d s phone Hb Hph). simpl.
  assert (Hd : (100000 <=? Persistent.amount d)
               = bool_decide (100000 ≤ Persistent.amount d)).
  { destruct (Z.leb_spec 100000 (Persistent.amount d));
      [by rewrite bool_decide_eq_true_2
      | rewrite bool_decide_eq_false_2; [done | lia]]. }
  split; [done |].
  split; [by rewrite lookup_insert_eq, Hd |].
  split; [intros other Hne; by rewrite lookup_insert_ne |].
  split; [done |]. split; [done |]. split; [| done].
  apply eligibility_paid_iff. split.
  - apply falsy_false. by eapply resolve_phone_truthy.
  - eexists _, _. simpl. split; [apply lookup_insert_eq | done].
Qed.

Lemma webhook_files_successful_charge_witness :
  let d := Persistent.Charge (Some (Some "")) (Some (Some ada))
             "PAY-7f3c" 100000 in
  let b := Persistent.ArrayBody (Persistent.ChargeSuccess d) in
  let s' := snd (Persistent.webhook_route 7 b ada_upgraded) in
  Persistent.resolve_phone d = Some ada
  ∧ Persistent.payments s' !! (ada, "PAY-7f3c")
    = Some (Persistent.PaymentDoc "success" true 7)
  ∧ field "paid" (fst (Persistent.eligibility ada s')) = Some (VBool true).
Proof.
  intros d b s'.
  destruct (webhook_files_successful_charge 7 b d ada_upgraded ada
              eq_refl eq_refl) as (_ & Hdoc & _ & _ & _ & Hpaid & _).
  split; [reflexivity |]. split; [exact Hdoc | exact Hpaid].
Defined.

(** X9. MongoDB backend: after a POST /api/verify-payment that the provider
    confirmed, GET /api/eligibility for the request's phone answers
    paid = true, at once and after any further requests. *)
Theorem verified_payment_shows_as_paid
    (t : Z) (r : Persistent.verify_req) (s : Persistent.db) (pv : provider)
    (later : list (env * Persistent.request)) :
  falsy (Persistent.v_reference r) = false →
  falsy (Persistent.v_phone r) = false →
  on_verify pv (Persistent.v_reference r) = Status "success" →
  let s' := snd (fst (run pv (Persistent.verify_payment t r s))) in
  field "paid"
    (fst (Persistent.eligibility (Persistent.v_phone r)
            (Persistent.serve later s')))
  = Some (VBool true).
Proof.
  intros Hr Hp Hv s'. subst s'.
  rewrite verify_payment_success by done. simpl.
  apply eligibility_paid_iff. split; [by apply falsy_false |].
  apply serve_has_paid. eexists _, _. simpl.
  split; [apply lookup_insert_eq | done].
Qed.

Lemma verified_payment_shows_as_paid_witness :
  let r := Persistent.VerifyReq "PAY-7f3c" ada None in
  let s' := snd (fst (run confirming
                        (Persistent.verify_payment 7 r Persistent.empty_db))) in
  field "paid" (fst (Persistent.eligibility ada Persistent.empty_db))
  = Some (VBool false)
  ∧ field "paid"
      (fst (Persistent.eligibility ada
              (Persistent.serve
                 [(at_noon abandoning, Persistent.PostVerifyPayment r)] s')))
    = Some (VBool true).
Proof.
  intros r s'. split; [reflexivity |].
  exact (verified_payment_shows_as_paid 7 r Persistent.empty_db confirming
           [(at_noon abandoning, Persistent.PostVerifyPayment r)]
           eq_refl eq_refl eq_refl).
Defined.

(** X10. MongoDB backend: when a confirmed verification and a webhook
    request whose body the handler itself parses as a [charge.success] event
    meet on the same (phone, reference), the later one overwrites the
    payment: verification then webhook leaves the upgrade flag of the amount
    threshold, webhook then verification leaves the upgrade flag of the
    request.  Both orders leave status success, and they leave the same
    store exactly when the two flags agree.  When the same event arrives as
    a JSON object, the handler's parse throws and the payment stays as the
    verification wrote it. *)
Theorem verify_and_webhook_last_writer_wins
    (t1 t2 : Z) (r : Persistent.verify_req) (b : Persistent.delivered)
    (d : Persistent.charge) (s : Persistent.db) (pv : provider) :
  falsy (Persistent.v_reference r) = false →
  falsy (Persistent.v_phone r) = false →
  on_verify pv (Persistent.v_reference r) = Status "success" →
  Persistent.handler_parse b = Persistent.ChargeSuccess d →
  Persistent.resolve_phone d = Some (Persistent.v_phone r) →
  Persistent.reference d = Persistent.v_reference r →
  let key := (Persistent.v_phone r, Persistent.v_reference r) in
  let by_amount := 100000 <=? Persistent.amount d in
  let by_request := truthy (Persistent.v_upgrade r) in
  let verified := snd (fst (run pv (Persistent.verify_payment t1 r s))) in
  let verify_then_hook := snd (Persistent.webhook_route t2 b verified) in
  let hook_then_verify :=
    snd (fst (run pv (Persistent.verify_payment t2 r
                        (snd (Persistent.webhook_route t1 b s))))) in
  Persistent.payments verify_then_hook !! key
  = Some (Persistent.PaymentDoc "success" by_amount t2)
  ∧ Persistent.payments hook_then_verify !! key
    = Some (Persistent.PaymentDoc "success" by_request t2)
  ∧ (verify_then_hook = hook_then_verify ↔ by_amount = by_request)
  ∧ Persistent.payments
      (snd (Persistent.webhook_route t2 Persistent.ObjectBody verified)) !! key
    = Some (Persistent.PaymentDoc "success" by_request t1).
Proof.
  intros Hr Hp Hv Hb Hph Href key by_amount by_request verified vh hv.
  subst verified vh hv.
  rewrite !verify_payment_success by done.
  rewrite !(webhook_files _ b d _ _ Hb Hph). simpl.
  rewrite Href. fold key by_amount by_request.
  rewrite !insert_insert_eq.
  split; [apply lookup_insert_eq |]. split; [apply lookup_insert_eq |].
  split; [| apply lookup_insert_eq].
  split.
  - intros E.
    assert (L : (<[key := Persistent.PaymentDoc "success" by_amount t2]>
                   (Persistent.payments s)) !! key
                = (<[key := Persistent.PaymentDoc "success" by_request t2]>
                     (Persistent.payments s)) !! key) by congruence.
    rewrite !lookup_insert_eq in L. congruence.
  - by intros ->.
Qed.

Lemma verify_and_webhook_last_writer_wins_witness :
  let r := Persistent.VerifyReq "PAY-7f3c" ada (Some (VBool true)) in
  let b := Persistent.ArrayBody (Persistent.ChargeSuccess ada_charge) in
  let verify_then_hook :=
    snd (Persistent.webhook_route 2 b
           (snd (fst (run confirming
                        (Persistent.verify_payment 1 r Persistent.empty_db))))) in
  let hook_then_verify :=
    snd (fst (run confirming
                (Persistent.verify_payment 2 r
                   (snd (Persistent.webhook_route 1 b Persistent.empty_db))))) in
  Persistent.payments verify_then_hook !! (ada, "PAY-7f3c")
  = Some (Persistent.PaymentDoc "success" false 2)
  ∧ Persistent.payments hook_then_verify !! (ada, "PAY-7f3c")
    = Some (Persistent.PaymentDoc "success" true 2)
  ∧ verify_then_hook ≠ hook_then_verify.
Proof.
  intros r b vh hv.
  destruct (verify_and_webhook_last_writer_wins 1 2 r b ada_charge
              Persistent.empty_db confirming
              eq_refl eq_refl eq_refl eq_refl eq_refl eq_refl)
    as (H1 & H2 & H3 & _).
  split; [exact H1 |]. split; [exact H2 |].
  intros E. apply H3 in E. discriminate E.
Defined.

(** *** Errors, and who writes what *)

(** X11. MongoDB backend: a request that is not answered with status 200
    leaves the whole store as it was. *)
Theorem rejected_request_changes_nothing
    (e : env) (q : Persistent.request) (s : Persistent.db) :
  status_of (fst (Persistent.handle e q s)) ≠ Some 200 →
  snd (Persistent.handle e q s) = s.
Proof.
  destruct q as [r | phone | r | r | phone | b]; simpl.
  - unfold Persistent.share. destruct (_ || _); [done |].
    by destruct (Persistent.find_shares _ _).
  - unfold Persistent.share_status.
    destruct (falsy phone); [done |]. by destruct (_ !! _).
  - unfold Persistent.application. by destruct (falsy _).
  - unfold Persistent.verify_payment.
    destruct (_ || _); [done |]. simpl.
    destruct (on_verify _ _) as [| st]; [done |]. simpl.
    by destruct (String.eqb st "success").
  - unfold Persistent.eligibility. by destruct (falsy phone).
  - unfold Persistent.webhook_route, Persistent.paystack_webhook.
    by destruct (Persistent.handler_parse b).
Qed.

Lemma rejected_request_changes_nothing_witness :
  let q := Persistent.PostShare (Persistent.ShareReq ada "family") in
  status_of (fst (Persistent.handle (at_noon confirming) q ada_charged))
  = Some 400
  ∧ snd (Persistent.handle (at_noon confirming) q ada_charged) = ada_charged.
Proof.
  intros q. split; [reflexivity |].
  apply (rejected_request_changes_nothing (at_noon confirming) q ada_charged).
  simpl. discriminate.
Defined.

(** What init-payment does once its request is valid. *)
Lemma mem_init_payment_valid t r s :
  falsy (InMemory.i_phone r) = false →
  round_double (InMemory.i_amount r) ≠ 0 →
  falsy (InMemory.i_email r) = false →
  InMemory.init_payment t r s
  = let amount := round_double (InMemory.i_amount r) in
    let reference := "PAY-" ++ InMemory.i_uuid r in
    let s' :=
      InMemory.Db (InMemory.shares s)
        (<[reference :=
             InMemory.Payment (InMemory.i_phone r) amount
               (InMemory.i_isUpgrade r) false t None]> (InMemory.payments s))
        (InMemory.applications s) (InMemory.assigned s) in
    Initialize (InMemory.i_email r) (js_mul amount 100) reference
      (λ reply,
         match reply with
         | Resolves (Some (authorization_url, access_code)) =>
             Ret (json [("authorization_url", VStr authorization_url);
                        ("access_code", VStr access_code);
                        ("reference", VStr reference)], s')
         | Resolves None =>
             Ret (error_json 500 "Payment initialization failed", s')
         | Rejects => Ret (error_json 500 "Payment initialization failed", s)
         end).
Proof.
  intros Hp Ha He. apply Z.eqb_neq in Ha.
  unfold InMemory.init_payment. rewrite Hp, Ha, He. simpl. f_equal.
Qed.

(** X12. In-memory backend: a request that is not answered with status 200
    (400, 403, 404 or 500) leaves the whole store as it was, with one
    exception: an init-payment request whose call to the provider resolves
    with a reply that carries no data is answered 500 with its payment on
    file. *)
Theorem mem_rejected_request_changes_nothing
    (e : env) (q : InMemory.request) (s : InMemory.db) :
  code (fst (InMemory.handle e q s)) ≠ 200 →
  snd (InMemory.handle e q s) = s
  ∨ ∃ r, q = InMemory.PostInitPayment r
         ∧ on_initialize (paystack e) ("PAY-" ++ InMemory.i_uuid r)
           = Resolves None
         ∧ fst (InMemory.handle e q s)
           = error_json 500 "Payment initialization failed"
         ∧ snd (InMemory.handle e q s)
           = InMemory.Db (InMemory.shares s)
               (<["PAY-" ++ InMemory.i_uuid r :=
                    InMemory.Payment (InMemory.i_phone r)
                      (round_double (InMemory.i_amount r))
                      (InMemory.i_isUpgrade r) false (now e) None]>
                  (InMemory.payments s))
               (InMemory.applications s) (InMemory.assigned s).
Proof.
  destruct q as [r | r | phone | r | r | reference]; simpl.
  - left. unfold InMemory.eligibility.
    by destruct (InMemory.verifyWhatsAppShares _ _ _).
  - intros Hc. left. revert Hc.
    unfold InMemory.share. destruct (_ || _); [done |].
    destruct (InMemory.lookup _ _ _); simpl; lia.
  - by left.
  - intros Hc. left. revert Hc. unfold InMemory.application.
    destruct (InMemory.verifyWhatsAppShares _ _ _) as [| st]; [done |].
    destruct (negb _); [done |]. destruct (falsy _); [done |]. simpl. lia.
  - unfold InMemory.init_payment.
    destruct (_ || _); [by left |]. simpl.
    destruct (on_initialize _ _) as [| [[url acc] |]] eqn:E; simpl;
      [by left | lia |].
    intros _. right. by exists r.
  - intros Hc. left. revert Hc. unfold InMemory.verify_payment.
    destruct (falsy reference); [done |].
    destruct (InMemory.lookup _ _ _) as [pay | | | m]; try done; simpl;
      (destruct (on_verify _ _) as [| st]; [done |]); simpl;
      destruct (String.eqb st "success"); simpl; lia.
Qed.

Lemma mem_rejected_request_changes_nothing_witness :
  let m := InMemory.serve ada_ready InMemory.empty_db in
  let e := Env 7 (Provider (λ _, Threw) (λ _, Resolves None)) in
  let r := InMemory.InitReq ada 900 "ada@example.com" false "a1b2" in
  code (fst (InMemory.handle e (InMemory.GetVerifyPayment "PAY-7f3c") m)) = 500
  ∧ snd (InMemory.handle e (InMemory.GetVerifyPayment "PAY-7f3c") m) = m
  ∧ code (fst (InMemory.handle e (InMemory.PostInitPayment r) m)) = 500
  ∧ InMemory.payments (snd (InMemory.handle e (InMemory.PostInitPayment r) m))
      !! "PAY-a1b2"
    = Some (InMemory.Payment ada 900 false false 7 None).
Proof.
  intros m e r.
  assert (H : code (fst (InMemory.handle e (InMemory.GetVerifyPayment "PAY-7f3c") m))
              = 500) by (vm_compute; reflexivity).
  assert (H' : code (fst (InMemory.handle e (InMemory.PostInitPayment r) m))
               = 500) by reflexivity.
  split; [exact H |]. split; [| split; [exact H' |]].
  - destruct (mem_rejected_request_changes_nothing e
                (InMemory.GetVerifyPayment "PAY-7f3c") m) as [E | (r' & E & _)];
      [rewrite H; lia | exact E | discriminate E].
  - destruct (mem_rejected_request_changes_nothing e
                (InMemory.PostInitPayment r) m) as [E | (r' & E & _ & _ & ->)];
      [rewrite H'; lia | |].
    + vm_compute. reflexivity.
    + injection E as <-. apply lookup_insert_eq.
Defined.

(** A request leaves the applications alone or writes the form of an
    application request over the document of its non-empty phone. *)
Lemma handle_applications e q s :
  Persistent.applications (snd (Persistent.handle e q s))
  = Persistent.applications s
  ∨ ∃ r, q = Persistent.PostApplication r
         ∧ Persistent.a_phone r ≠ ""
         ∧ Persistent.applications (snd (Persistent.handle e q s))
           = <[Persistent.a_phone r :=
                 Persistent.set_fields (Persistent.application_set (now e) r)
                   (Persistent.applications s !! Persistent.a_phone r)
                   {["phone" := VStr (Persistent.a_phone r)]}]>
               (Persistent.applications s).
Proof.
  destruct q as [r | phone | r | r | phone | b]; simpl.
  - left. unfold Persistent.share. destruct (_ || _); [done |].
    by destruct (Persistent.find_shares _ _).
  - left. unfold Persistent.share_status.
    destruct (falsy phone); [done |]. by destruct (_ !! _).
  - unfold Persistent.application.
    destruct (falsy _) eqn:Hp; [by left |].
    right. exists r. apply falsy_false in Hp. by repeat split.
  - left. unfold Persistent.verify_payment.
    destruct (_ || _); [done |]. simpl.
    destruct (on_verify _ _) as [| st]; [done |]. simpl.
    by destruct (String.eqb st "success").
  - left. unfold Persistent.eligibility. by destruct (falsy phone).
  - left. apply webhook_route_frame.
Qed.

Lemma set_fields_lookup upd found filter k :
  Persistent.set_fields upd found filter !! k
  = match upd !! k with
    | Some v => Some v
    | None => match found with
              | Some doc => doc !! k
              | None => filter !! k
              end
    end.
Proof.
  unfold Persistent.set_fields.
  destruct found as [doc |]; rewrite lookup_union; by destruct (upd !! k), (_ !! k).
Qed.

(** X13. MongoDB backend: in every store reached from the empty one, every
    application document is filed under a non-empty phone, carries that
    phone in its [phone] field and has an [updatedAt] date. *)
Theorem applications_filed_under_phone (qs : list (env * Persistent.request)) :
  filed_under_phone (Persistent.serve qs Persistent.empty_db).
Proof.
  assert (G : ∀ s, filed_under_phone s →
                   filed_under_phone (Persistent.serve qs s)).
  { induction qs as [| [e q] qs IH]; intros s Hs; simpl; [done |].
    apply IH. intros phone doc.
    destruct (handle_applications e q s) as [-> | (r & _ & Hp & ->)];
      [apply Hs |].
    rewrite lookup_insert. destruct (decide _) as [<- |]; [| apply Hs].
    intros [= <-]. split; [done |]. rewrite !set_fields_lookup.
    unfold Persistent.application_set.
    rewrite lookup_insert_ne, !lookup_insert_eq by done. eauto. }
  apply G. intros phone doc. simpl. by rewrite lookup_empty.
Qed.

(** X14. MongoDB backend: the [upgraded] field of an application can only
    come from form data.  In a run from the empty store in which every
    application request sends a flat form (plain field names, no dots or
    dollars, scalar values) without an [upgraded] field, no application
    document ever has one, whatever payments were verified. *)
Theorem upgraded_only_from_form (qs : list (env * Persistent.request)) :
  sends_no_upgraded qs →
  none_upgraded (Persistent.serve qs Persistent.empty_db).
Proof.
  assert (G : ∀ s, sends_no_upgraded qs → none_upgraded s →
                   none_upgraded (Persistent.serve qs s)).
  { induction qs as [| [e q] qs IH]; intros s Hqs Hs; simpl; [done |].
    apply Forall_cons in Hqs as [Hq Hqs]. apply IH; [done |].
    intros phone doc.
    destruct (handle_applications e q s) as [-> | (r & -> & Hp & ->)];
      [apply Hs |].
    simpl in Hq. destruct Hq as [_ Hq]. rewrite lookup_insert.
    destruct (decide _) as [<- |]; [| apply Hs].
    intros [= <-]. rewrite set_fields_lookup.
    rewrite application_set_lookup, Hq by done.
    destruct (Persistent.applications s !! Persistent.a_phone r) as [old |] eqn:E.
    - by eapply Hs.
    - by rewrite lookup_singleton_ne. }
  intros Hqs. apply G; [done |].
  intros phone doc. simpl. by rewrite lookup_empty.
Qed.

Lemma upgraded_only_from_form_witness :
  let qs := [(at_noon confirming,
              Persistent.PostApplication
                (Persistent.ApplicationReq ada {["name" := VStr "Ada"]}));
             (at_noon confirming,
              Persistent.PostVerifyPayment
                (Persistent.VerifyReq "PAY-7f3c" ada (Some (VBool true))));
             (at_noon confirming,
              Persistent.PostShare (Persistent.ShareReq ada "friend"))] in
  sends_no_upgraded qs
  ∧ Persistent.payments (Persistent.serve qs Persistent.empty_db)
      !! (ada, "PAY-7f3c")
    = Some (Persistent.PaymentDoc "success" true 1700000000000)
  ∧ none_upgraded (Persistent.serve qs Persistent.empty_db).
Proof.
  intros qs.
  assert (H : sends_no_upgraded qs).
  { constructor; [| repeat constructor].
    split; [| reflexivity]. by apply flat_form_singleton. }
  split; [exact H |]. split; [vm_compute; reflexivity |].
  exact (upgraded_only_from_form qs H).
Defined.

(** *** Reading back what was written *)

(** X15. MongoDB backend: after an accepted POST /api/share, GET
    /api/share-status for the same phone answers exactly the counters the
    share answered, and leaves the store alone; for a phone with no share on
    record, and for a missing phone, it answers 0/0. *)
Theorem share_status_reads_back_share
    (t : Z) (r : Persistent.share_req) (s : Persistent.db) :
  falsy (Persistent.s_phone r) = false →
  Persistent.valid_type (Persistent.s_type r) = true →
  let s' := snd (Persistent.share t r s) in
  (∃ f g,
     fst (Persistent.share t r s)
     = json [("shared", VObj [("friends", VNum f); ("groups", VNum g)])]
     ∧ Persistent.share_status (Persistent.s_phone r) s'
       = (json [("friends", VNum f); ("groups", VNum g)], s'))
  ∧ (∀ other, Persistent.shares s' !! other = None →
       Persistent.share_status other s'
       = (json [("friends", VNum 0); ("groups", VNum 0)], s')).
Proof.
  intros Hp Hv s'. subst s'. unfold Persistent.share.
  rewrite Hp, Hv. simpl.
  destruct (Persistent.find_shares s (Persistent.s_phone r)) as [f g].
  split.
  - eexists _, _. split; [reflexivity |].
    unfold Persistent.share_status. rewrite Hp. simpl.
    by rewrite lookup_insert_eq, !num_or0_id.
  - intros other Hnone. unfold Persistent.share_status.
    destruct (falsy other); [done |]. by rewrite Hnone.
Qed.

Lemma share_status_reads_back_share_witness :
  let s := Persistent.serve ada_shares_mongo Persistent.empty_db in
  let r := Persistent.ShareReq "+2348030000002" "friend" in
  let s' := snd (Persistent.share 8 r s) in
  fst (Persistent.share 8 r s)
  = json [("shared", VObj [("friends", VNum 1); ("groups", VNum 0)])]
  ∧ fst (Persistent.share_status "+2348030000002" s')
    = json [("friends", VNum 1); ("groups", VNum 0)]
  ∧ fst (Persistent.share_status ada s')
    = json [("friends", VNum 10); ("groups", VNum 2)]
  ∧ fst (Persistent.share_status "+2348030000003" s')
    = json [("friends", VNum 0); ("groups", VNum 0)].
Proof.
  intros s r s'.
  destruct (share_status_reads_back_share 8 r s eq_refl eq_refl)
    as [(f & g & Hshare & Hstatus) Hother].
  fold s' in Hstatus, Hother.
  assert (E : fst (Persistent.share 8 r s)
              = json [("shared", VObj [("friends", VNum 1); ("groups", VNum 0)])])
    by (vm_compute; reflexivity).
  rewrite E in Hshare. injection Hshare as <- <-.
  split; [exact E |]. split; [exact (f_equal fst Hstatus) |].
  split; [vm_compute; reflexivity |].
  refine (f_equal fst (Hother "+2348030000003" _)). vm_compute. reflexivity.
Defined.

Lemma eligibility_spec_witness :
  let s := Persistent.serve
             (ada_shares_mongo
              ++ [(at_noon confirming,
                   Persistent.PostVerifyPayment
                     (Persistent.VerifyReq "PAY-7f3c" ada None))])
             Persistent.empty_db in
  Persistent.eligibility ada s
  = (json [("canAccessForm", VBool true); ("paid", VBool true)], s)
  ∧ quota_met (Persistent.find_shares s ada)
  ∧ has_paid s ada.
Proof.
  intros s.
  destruct (eligibility_spec ada s eq_refl) as (can & paid & E & Hcan & Hpaid).
  assert (E' : fst (Persistent.eligibility ada s)
               = json [("canAccessForm", VBool true); ("paid", VBool true)])
    by (vm_compute; reflexivity).
  rewrite E in E'. simpl in E'. injection E' as -> ->.
  split; [exact E |]. split; [by apply Hcan | by apply Hpaid].
Defined.

(** *** The in-memory backend *)

Lemma mem_application_gate_witness :
  let m := InMemory.serve (tail ada_shares) InMemory.empty_db in
  let r := InMemory.ApplicationReq ada "" {["name" := VStr "Ada"]} in
  mem_shares m ada = (9, 2)
  ∧ InMemory.application r m
    = (error_json 403 "Complete WhatsApp sharing requirements first", m).
Proof.
  intros m r.
  assert (E : mem_shares m ada = (9, 2)) by (vm_compute; reflexivity).
  split; [exact E |].
  apply (mem_application_gate r m); [reflexivity |].
  change (¬ quota_met (mem_shares m ada)).
  rewrite E. unfold quota_met. simpl. lia.
Defined.

(** A request leaves the payments alone, or files a fresh unverified payment
    under a reference made from a uuid, or marks a payment on record
    verified. *)
Lemma mem_handle_payments e q s :
  InMemory.payments (snd (InMemory.handle e q s)) = InMemory.payments s
  ∨ (∃ r, q = InMemory.PostInitPayment r
          ∧ InMemory.payments (snd (InMemory.handle e q s))
            = <["PAY-" ++ InMemory.i_uuid r :=
                  InMemory.Payment (InMemory.i_phone r)
                    (round_double (InMemory.i_amount r))
                    (InMemory.i_isUpgrade r) false (now e) None]>
                (InMemory.payments s))
  ∨ (∃ reference p,
        q = InMemory.GetVerifyPayment reference
        ∧ InMemory.payments s !! reference = Some p
        ∧ InMemory.payments (snd (InMemory.handle e q s))
          = <[reference :=
                InMemory.Payment (InMemory.phone p) (InMemory.amount p)
                  (InMemory.isUpgrade p) true (InMemory.createdAt p)
                  (Some (now e))]>
              (InMemory.payments s)).
Proof.
  destruct q as [r | r | phone | r | r | reference]; simpl.
  - left. unfold InMemory.eligibility.
    by destruct (InMemory.verifyWhatsAppShares _ _ _).
  - left. unfold InMemory.share. destruct (_ || _); [done |].
    destruct (InMemory.lookup _ _ _) as [u | | | m]; try done. simpl.
    destruct (String.eqb _ "friend"); [apply assign_own |].
    destruct (String.eqb _ "group"); [apply assign_own | done].
  - by left.
  - left. unfold InMemory.application.
    destruct (InMemory.verifyWhatsAppShares _ _ _) as [| st]; [done |].
    destruct (negb _); [done |]. by destruct (falsy _).
  - unfold InMemory.init_payment.
    destruct (_ || _); [by left |]. simpl.
    destruct (on_initialize _ _) as [| [[url acc] |]]; [by left | |];
      right; left; by exists r.
  - unfold InMemory.verify_payment.
    destruct (falsy reference); [by left |].
    unfold InMemory.lookup.
    destruct (InMemory.payments s !! reference) as [pay |] eqn:E.
    + simpl. destruct (on_verify _ _) as [| st]; [by left |]. simpl.
      destruct (String.eqb st "success"); [| by left].
      right. right. exists reference, pay. simpl.
      by rewrite upgrade_application_payments.
    + left.
      destruct (inherited_cases (A := InMemory.payment) s reference)
        as [-> | [-> | ->]]; try done. simpl.
      destruct (on_verify _ _) as [| st]; [done |]. simpl.
      destruct (String.eqb st "success"); [| done]. simpl.
      destruct (assign_own reference "verifiedAt"
                  (InMemory.assign reference "verified" s)) as (_ & -> & _).
      apply assign_own.
Qed.

Lemma mem_serve_keyed qs : ∀ s,
  keyed_by_reference s → keyed_by_reference (InMemory.serve qs s).
Proof.
  induction qs as [| [e q] qs IH]; intros s Hs; simpl; [done |].
  apply IH. intros key p.
  destruct (mem_handle_payments e q s)
    as [-> | [(r & _ & ->) | (reference & p0 & _ & Hl & ->)]]; [apply Hs | |].
  - rewrite lookup_insert. destruct (decide _) as [<- |]; [eauto | apply Hs].
  - rewrite lookup_insert. destruct (decide _) as [<- |]; [| apply Hs].
    intros _. by eapply Hs.
Qed.

(** X17. In-memory backend: in a run from the empty store, for a phone of
    the query string under which no object inherits anything, GET
    /api/eligibility answers paid = true only when that phone is itself a
    payment reference ("PAY-" followed by a uuid); for any other such phone
    it answers paid = false, whatever was paid. *)
Theorem mem_paid_only_for_references
    (qs : list (env * InMemory.request)) (r : InMemory.eligibility_req) :
  InMemory.plain (InMemory.e_query_phone r) = true →
  field "paid"
    (fst (InMemory.eligibility r (InMemory.serve qs InMemory.empty_db)))
  = Some (VBool true) →
  ∃ uuid, InMemory.e_query_phone r = "PAY-" ++ uuid.
Proof.
  intros Hk.
  assert (K : keyed_by_reference (InMemory.serve qs InMemory.empty_db)).
  { apply mem_serve_keyed. intros key p. simpl. by rewrite lookup_empty. }
  unfold InMemory.eligibility.
  destruct (InMemory.verifyWhatsAppShares _ _ _) as [resp | st] eqn:E.
  - unfold InMemory.verifyWhatsAppShares in E.
    destruct (falsy _); [| by destruct (InMemory.lookup _ _ _)].
    injection E as <-. discriminate.
  - unfold field. simpl. unfold InMemory.hasPaid.
    rewrite lookup_plain by done.
    destruct (InMemory.payments _ !! InMemory.e_query_phone r) as [p |] eqn:L;
      simpl; [| discriminate].
    intros _. by eapply K.
Qed.

Lemma mem_paid_only_for_references_witness :
  let r := InMemory.EligibilityReq "" "PAY-7f3c" in
  InMemory.plain "PAY-7f3c" = true
  ∧ field "paid"
      (fst (InMemory.eligibility r (InMemory.serve ada_pays InMemory.empty_db)))
    = Some (VBool true)
  ∧ ∃ uuid, "PAY-7f3c" = "PAY-" ++ uuid.
Proof.
  intros r.
  assert (H : field "paid"
                (fst (InMemory.eligibility r
                        (InMemory.serve ada_pays InMemory.empty_db)))
              = Some (VBool true)) by (vm_compute; reflexivity).
  split; [reflexivity |]. split; [exact H |].
  exact (mem_paid_only_for_references ada_pays r eq_refl H).
Defined.

(** Within the range in which doubles hold every integer, the product is
    exact. *)
Lemma js_mul_exact a b : Z.abs (a * b) ≤ 2 ^ 53 → js_mul a b = a * b.
Proof.
  intros H. unfold js_mul, round_double.
  apply Z.leb_le in H. by rewrite H.
Qed.

Lemma round_double_exact n : Z.abs n ≤ 2 ^ 53 → round_double n = n.
Proof. intros H. unfold round_double. apply Z.leb_le in H. by rewrite H. Qed.

(** Beyond that range the amount and the product are rounded: for the
    amount 9007199254740993 the provider is asked for 900719925474099200
    kobo, and the payment is filed with the amount 9007199254740992. *)
Example init_payment_rounds :
  let r := InMemory.InitReq ada 9007199254740993 "ada@example.com" false "7f3c" in
  (∃ k, InMemory.init_payment 1 r InMemory.empty_db
        = Initialize "ada@example.com" 900719925474099200 "PAY-7f3c" k)
  ∧ InMemory.amount
      <$> InMemory.payments
            (snd (fst (run confirming
                         (InMemory.init_payment 1 r InMemory.empty_db))))
          !! "PAY-7f3c"
    = Some 9007199254740992.
Proof.
  intros r. split.
  - rewrite mem_init_payment_valid by (vm_compute; done). cbv zeta.
    eexists. f_equal.
  - vm_compute. reflexivity.
Qed.

(** X18. In-memory backend: a valid POST /api/init-payment whose amount
    times 100 is at most 2^53 in magnitude, and that the provider accepts,
    asks the provider for 100 times the amount under the reference
    "PAY-" + uuid, answers with that reference, and files an unverified
    payment under it; a GET /api/verify-payment of that reference which the
    provider confirms then answers success = true with the amount and the
    upgrade flag of the initiation, and marks the payment verified. *)
Theorem init_then_verify
    (t1 t2 : Z) (r : InMemory.init_req) (s : InMemory.db) (pv : provider)
    (url acc : string) :
  falsy (InMemory.i_phone r) = false →
  InMemory.i_amount r ≠ 0 →
  Z.abs (InMemory.i_amount r * 100) ≤ 2 ^ 53 →
  falsy (InMemory.i_email r) = false →
  let reference := "PAY-" ++ InMemory.i_uuid r in
  on_initialize pv reference = Resolves (Some (url, acc)) →
  on_verify pv reference = Status "success" →
  let out1 := fst (run pv (InMemory.init_payment t1 r s)) in
  let out2 := fst (run pv (InMemory.verify_payment t2 reference (snd out1))) in
  (∃ k, InMemory.init_payment t1 r s
        = Initialize (InMemory.i_email r) (InMemory.i_amount r * 100) reference k)
  ∧ fst out1 = json [("authorization_url", VStr url);
                     ("access_code", VStr acc);
                     ("reference", VStr reference)]
  ∧ InMemory.payments (snd out1) !! reference
    = Some (InMemory.Payment (InMemory.i_phone r) (InMemory.i_amount r)
              (InMemory.i_isUpgrade r) false t1 None)
  ∧ fst out2 = json [("success", VBool true);
                     ("amount", VNum (InMemory.i_amount r));
                     ("isUpgrade", VBool (InMemory.i_isUpgrade r))]
  ∧ InMemory.payments (snd out2) !! reference
    = Some (InMemory.Payment (InMemory.i_phone r) (InMemory.i_amount r)
              (InMemory.i_isUpgrade r) true t1 (Some t2)).
Proof.
  intros Hp Ha Hsafe He reference Hi Hv out1 out2.
  assert (Hround : round_double (InMemory.i_amount r) = InMemory.i_amount r)
    by (apply round_double_exact; lia).
  assert (Einit := mem_init_payment_valid t1 r s Hp).
  rewrite Hround in Einit. specialize (Einit Ha He). cbv zeta in Einit.
  rewrite js_mul_exact in Einit by done. fold reference in Einit.
  assert (E1 : out1
               = (json [("authorization_url", VStr url);
                        ("access_code", VStr acc);
                        ("reference", VStr reference)],
                  InMemory.Db (InMemory.shares s)
                    (<[reference :=
                         InMemory.Payment (InMemory.i_phone r)
                           (InMemory.i_amount r) (InMemory.i_isUpgrade r)
                           false t1 None]> (InMemory.payments s))
                    (InMemory.applications s) (InMemory.assigned s))).
  { subst out1. rewrite Einit. simpl. by rewrite Hi. }
  assert (L : InMemory.payments (snd out1) !! reference
              = Some (InMemory.Payment (InMemory.i_phone r)
                        (InMemory.i_amount r) (InMemory.i_isUpgrade r)
                        false t1 None)).
  { rewrite E1. simpl. apply lookup_insert_eq. }
  split; [rewrite Einit; eauto |].
  split; [by rewrite E1 |]. split; [exact L |].
  subst out2.
  rewrite (mem_verify_success t2 reference (snd out1) _ pv eq_refl L Hv).
  cbn [fst snd]. split; [done |].
  rewrite upgrade_application_payments. apply lookup_insert_eq.
Qed.

Lemma init_then_verify_witness :
  let r := InMemory.InitReq ada 5000 "ada@example.com" true "7f3c" in
  let out1 := fst (run confirming
                     (InMemory.init_payment 1 r InMemory.empty_db)) in
  let out2 := fst (run confirming
                     (InMemory.verify_payment 2 "PAY-7f3c" (snd out1))) in
  Z.abs (5000 * 100) ≤ 2 ^ 53
  ∧ field "reference" (fst out1) = Some (VStr "PAY-7f3c")
  ∧ fst out2 = json [("success", VBool true); ("amount", VNum 5000);
                     ("isUpgrade", VBool true)]
  ∧ InMemory.payments (snd out2) !! "PAY-7f3c"
    = Some (InMemory.Payment ada 5000 true true 1 (Some 2)).
Proof.
  intros r out1 out2.
  assert (Ha : InMemory.i_amount r ≠ 0) by discriminate.
  assert (Hs : Z.abs (InMemory.i_amount r * 100) ≤ 2 ^ 53)
    by (vm_compute; discriminate).
  destruct (init_then_verify 1 2 r InMemory.empty_db confirming
              "https://checkout.paystack.com/0peioxfhpn" "0peioxfhpn"
              eq_refl Ha Hs eq_refl eq_refl eq_refl)
    as (_ & H1 & _ & H2 & H3).
  split; [exact Hs |].
  split; [| split; [exact H2 | exact H3]].
  change (field "reference" (fst out1) = Some (VStr "PAY-7f3c")).
  fold out1 in H1. by rewrite H1.
Defined.

(** X19. In-memory backend: a verified payment stays verified, with its
    phone, amount and upgrade flag, through any run in which no init-payment
    request draws the uuid of its reference again. *)
Theorem verified_stays_verified
    (qs : list (env * InMemory.request)) (s : InMemory.db)
    (reference : string) (p : InMemory.payment) :
  InMemory.payments s !! reference = Some p →
  InMemory.verified p = true →
  Forall (λ eq, ∀ r, snd eq = InMemory.PostInitPayment r →
                     "PAY-" ++ InMemory.i_uuid r ≠ reference) qs →
  ∃ p', InMemory.payments (InMemory.serve qs s) !! reference = Some p'
        ∧ InMemory.verified p' = true
        ∧ InMemory.phone p' = InMemory.phone p
        ∧ InMemory.amount p' = InMemory.amount p
        ∧ InMemory.isUpgrade p' = InMemory.isUpgrade p.
Proof.
  revert s p.
  induction qs as [| [e q] qs IH]; intros s p Hl Hv Hqs; simpl.
  { exists p. by repeat split. }
  apply Forall_cons in Hqs as [Hq Hqs]. simpl in Hq.
  assert (∃ p1, InMemory.payments (snd (InMemory.handle e q s)) !! reference
                = Some p1
                ∧ InMemory.verified p1 = true
                ∧ InMemory.phone p1 = InMemory.phone p
                ∧ InMemory.amount p1 = InMemory.amount p
                ∧ InMemory.isUpgrade p1 = InMemory.isUpgrade p)
    as (p1 & Hl1 & Hv1 & E1 & E2 & E3).
  { destruct (mem_handle_payments e q s)
      as [-> | [(r & -> & ->) | (rf & p0 & _ & Hl0 & ->)]].
    - exists p. by repeat split.
    - rewrite lookup_insert_ne by by apply Hq. exists p. by repeat split.
    - rewrite lookup_insert. destruct (decide _) as [-> |].
      + rewrite Hl in Hl0. injection Hl0 as <-.
        eexists. split; [reflexivity |]. by repeat split.
      + exists p. by repeat split. }
  destruct (IH _ p1 Hl1 Hv1 Hqs) as (p' & ? & ? & ? & ? & ?).
  exists p'. repeat split; congruence.
Qed.

Lemma verified_stays_verified_witness :
  let s := InMemory.serve ada_pays InMemory.empty_db in
  let qs := [(at_noon abandoning, InMemory.GetVerifyPayment "PAY-7f3c");
             (at_noon confirming,
              InMemory.PostInitPayment
                (InMemory.InitReq ada 900 "ada@example.com" false "a1b2"))] in
  ∃ p', InMemory.payments (InMemory.serve qs s) !! "PAY-7f3c" = Some p'
        ∧ InMemory.verified p' = true
        ∧ InMemory.amount p' = 5000.
Proof.
  intros s qs.
  assert (Hl : InMemory.payments s !! "PAY-7f3c"
               = Some (InMemory.Payment ada 5000 true true 1700000000000
                         (Some 1700000000000))) by (vm_compute; reflexivity).
  assert (Hqs : Forall (λ eq, ∀ r, snd eq = InMemory.PostInitPayment r →
                                   "PAY-" ++ InMemory.i_uuid r ≠ "PAY-7f3c") qs).
  { repeat constructor; simpl; intros r E; [discriminate E |].
    injection E as <-. discriminate. }
  destruct (verified_stays_verified qs s "PAY-7f3c" _ Hl eq_refl Hqs)
    as (p' & H1 & H2 & _ & H3 & _).
  exists p'. split; [exact H1 |]. split; [exact H2 | exact H3].
Defined.

Lemma set_upgraded_lookup phone apps other :
  InMemory.set_upgraded phone apps !! other
  = if decide (phone = other)
    then (λ doc, <["upgraded" := VBool true]> doc) <$> apps !! phone
    else apps !! other.
Proof.
  unfold InMemory.set_upgraded. rewrite lookup_alter.
  by destruct (decide (phone = other)) as [<- |].
Qed.

Lemma set_upgraded_twice phone apps :
  InMemory.set_upgraded phone (InMemory.set_upgraded phone apps)
  = InMemory.set_upgraded phone apps.
Proof.
  apply map_eq. intros other. rewrite !set_upgraded_lookup.
  destruct (decide (phone = other)); [| done].
  rewrite decide_True by done.
  destruct (apps !! phone) as [doc |]; simpl; [| done].
  by rewrite insert_insert_eq.
Qed.

(** X20. In-memory backend: verifying a confirmed payment a second time
    answers as the first time and changes nothing but the [verifiedAt] date
    of the payment. *)
Theorem mem_verify_twice
    (t1 t2 : Z) (reference : string) (s : InMemory.db) (p : InMemory.payment)
    (pv : provider) :
  falsy reference = false →
  InMemory.payments s !! reference = Some p →
  on_verify pv reference = Status "success" →
  let once := fst (run pv (InMemory.verify_payment t1 reference s)) in
  let twice := fst (run pv (InMemory.verify_payment t2 reference (snd once))) in
  fst twice = fst once
  ∧ InMemory.shares (snd twice) = InMemory.shares (snd once)
  ∧ InMemory.applications (snd twice) = InMemory.applications (snd once)
  ∧ InMemory.payments (snd twice)
    = <[reference :=
          InMemory.Payment (InMemory.phone p) (InMemory.amount p)
            (InMemory.isUpgrade p) true (InMemory.createdAt p) (Some t2)]>
        (InMemory.payments s).
Proof.
  intros Hr Hl Hv once twice. subst twice once.
  rewrite (mem_verify_success t1 reference s p pv) by done. cbn [fst snd].
  erewrite mem_verify_success;
    [| done
     | rewrite upgrade_application_payments; simpl; apply lookup_insert_eq
     | done].
  cbn [fst snd].
  rewrite !upgrade_application_shares, !upgrade_application_payments,
    !upgrade_application_applications.
  simpl. split; [done |]. split; [done |].
  split; [| by rewrite insert_insert_eq].
  destruct (InMemory.isUpgrade p); simpl; [| done].
  destruct (InMemory.applications s !! InMemory.phone p) as [doc |] eqn:E;
    simpl; [| by rewrite E].
  rewrite set_upgraded_lookup, decide_True, E by done. simpl.
  apply set_upgraded_twice.
Qed.

Lemma mem_verify_twice_witness :
  let m := InMemory.serve ada_ready InMemory.empty_db in
  let once := fst (run confirming (InMemory.verify_payment 1 "PAY-7f3c" m)) in
  let twice := fst (run confirming
                      (InMemory.verify_payment 2 "PAY-7f3c" (snd once))) in
  fst twice = fst once
  ∧ InMemory.applications (snd twice) = InMemory.applications (snd once)
  ∧ InMemory.payments (snd twice) !! "PAY-7f3c"
    = Some (InMemory.Payment ada 5000 true true 1700000000000 (Some 2)).
Proof.
  intros m once twice.
  assert (Hl : InMemory.payments m !! "PAY-7f3c" = Some ada_payment)
    by (vm_compute; reflexivity).
  destruct (mem_verify_twice 1 2 "PAY-7f3c" m ada_payment confirming
              eq_refl Hl eq_refl) as (H1 & _ & H2 & H3).
  split; [exact H1 |]. split; [exact H2 |].
  fold once twice in H3. rewrite H3. apply lookup_insert_eq.
Defined.

(** X21. In-memory backend: the upgrade of a payment reaches the application
    only if the application is on record when the payment is verified.  For
    a phone that meets the quota and has an upgrade payment but no
    application yet: submitting and then verifying leaves the request body
    with upgraded = true on record; verifying and then submitting leaves the
    request body as it was sent. *)
Theorem upgrade_needs_application_first
    (t : Z) (reference : string) (p : InMemory.payment)
    (r : InMemory.application_req) (s : InMemory.db) (pv : provider) :
  falsy reference = false →
  InMemory.payments s !! reference = Some p →
  InMemory.isUpgrade p = true →
  on_verify pv reference = Status "success" →
  InMemory.a_phone r = InMemory.phone p →
  falsy (InMemory.a_phone r) = false →
  quota_met (mem_shares s (InMemory.a_phone r)) →
  InMemory.applications s !! InMemory.a_phone r = None →
  let submit_then_verify :=
    snd (fst (run pv (InMemory.verify_payment t reference
                        (snd (InMemory.application r s))))) in
  let verify_then_submit :=
    snd (InMemory.application r
           (snd (fst (run pv (InMemory.verify_payment t reference s))))) in
  InMemory.applications submit_then_verify !! InMemory.a_phone r
  = Some (<["upgraded" := VBool true]> (InMemory.a_body r))
  ∧ InMemory.applications verify_then_submit !! InMemory.a_phone r
    = Some (InMemory.a_body r).
Proof.
  intros Hr Hl Hup Hv Heq Hp Hq Hnone sv vs. subst sv vs.
  split.
  - rewrite mem_application_accepted by done.
    erewrite mem_verify_success; [| done | exact Hl | done].
    cbn [fst snd]. rewrite upgrade_application_applications. simpl.
    rewrite Hup, <- Heq, lookup_insert_eq. simpl.
    rewrite set_upgraded_lookup, decide_True by done.
    by rewrite lookup_insert_eq.
  - rewrite (mem_verify_success t reference s p pv) by done. cbn [fst snd].
    rewrite mem_application_accepted; [| done |].
    + simpl. apply lookup_insert_eq.
    + erewrite mem_shares_eq; [exact Hq |].
      by rewrite upgrade_application_shares.
Qed.

Lemma upgrade_needs_application_first_witness :
  let m := InMemory.serve
             (ada_shares
              ++ [(at_noon confirming,
                   InMemory.PostInitPayment
                     (InMemory.InitReq ada 5000 "ada@example.com" true "7f3c"))])
             InMemory.empty_db in
  let r := InMemory.ApplicationReq ada "" {["name" := VStr "Ada"]} in
  let submit_then_verify :=
    snd (fst (run confirming
                (InMemory.verify_payment 9 "PAY-7f3c"
                   (snd (InMemory.application r m))))) in
  let verify_then_submit :=
    snd (InMemory.application r
           (snd (fst (run confirming
                        (InMemory.verify_payment 9 "PAY-7f3c" m))))) in
  InMemory.applications submit_then_verify !! ada
  = Some (<["upgraded" := VBool true]> (InMemory.a_body r))
  ∧ InMemory.applications verify_then_submit !! ada = Some (InMemory.a_body r)
  ∧ InMemory.a_body r !! "upgraded" = None.
Proof.
  intros m r sv vs.
  assert (Hl : InMemory.payments m !! "PAY-7f3c" = Some ada_payment)
    by (vm_compute; reflexivity).
  assert (Hq : quota_met (mem_shares m (InMemory.a_phone r)))
    by (vm_compute; split; discriminate).
  assert (Hn : InMemory.applications m !! InMemory.a_phone r = None)
    by (vm_compute; reflexivity).
  destruct (upgrade_needs_application_first 9 "PAY-7f3c" ada_payment r m
              confirming eq_refl Hl eq_refl eq_refl eq_refl eq_refl Hq Hn)
    as [H1 H2].
  split; [exact H1 |]. split; [exact H2 | reflexivity].
Defined.

(** A request leaves the applications alone, or files the body of an
    admitted application request, or sets [upgraded] on one document. *)
Lemma mem_handle_applications e q s :
  InMemory.applications (snd (InMemory.handle e q s)) = InMemory.applications s
  ∨ (∃ r, q = InMemory.PostApplication r
          ∧ InMemory.a_phone r ≠ ""
          ∧ quota_met (mem_shares s (InMemory.a_phone r))
          ∧ InMemory.applications (snd (InMemory.handle e q s))
            = <[InMemory.a_phone r := InMemory.a_body r]>
                (InMemory.applications s))
  ∨ (∃ phone,
        InMemory.applications (snd (InMemory.handle e q s))
        = InMemory.set_upgraded phone (InMemory.applications s)).
Proof.
  destruct q as [r | r | phone | r | r | reference]; simpl.
  - left. unfold InMemory.eligibility.
    by destruct (InMemory.verifyWhatsAppShares _ _ _).
  - left. unfold InMemory.share. destruct (_ || _); [done |].
    destruct (InMemory.lookup _ _ _) as [u | | | m]; try done. simpl.
    destruct (String.eqb _ "friend"); [apply assign_own |].
    destruct (String.eqb _ "group"); [apply assign_own | done].
  - by left.
  - unfold InMemory.application.
    destruct (InMemory.verifyWhatsAppShares _ _ _) as [resp | st] eqn:E;
      [by left |].
    apply verifyWhatsAppShares_quota in E as [_ E].
    destruct (InMemory.canAccessForm st); simpl; [| by left].
    destruct (falsy (InMemory.a_phone r)) eqn:Hp; [by left |].
    right. left. exists r.
    unfold str_or in E. rewrite Hp in E. apply falsy_false in Hp.
    split; [done |]. split; [done |]. split; [by apply E | done].
  - left. unfold InMemory.init_payment.
    destruct (_ || _); [done |]. simpl.
    by destruct (on_initialize _ _) as [| [[url acc] |]].
  - unfold InMemory.verify_payment.
    destruct (falsy reference); [by left |].
    destruct (InMemory.lookup _ _ _) as [pay | | | m]; try (by left); simpl;
      (destruct (on_verify _ _) as [| st]; [by left |]); simpl;
      (destruct (String.eqb st "success"); [| by left]); simpl.
    + rewrite upgrade_application_applications. simpl.
      destruct (_ && _); [right; right; eauto | by left].
    + left.
      destruct (assign_own m "verifiedAt" (InMemory.assign m "verified" s))
        as (_ & _ & ->).
      apply assign_own.
Qed.

Lemma mem_handle_admitted e q s :
  mem_capped s → admitted s → admitted (snd (InMemory.handle e q s)).
Proof.
  intros Hc Hs phone doc Hl.
  pose proof (mem_handle_grows e q s phone Hc) as [Lf Lg].
  assert (G : ∀ doc0, InMemory.applications s !! phone = Some doc0 →
                      doc0 !! "phone" = Some (VStr phone) →
                      doc !! "phone" = Some (VStr phone) →
                      phone ≠ ""
                      ∧ quota_met (mem_shares (snd (InMemory.handle e q s)) phone)
                      ∧ doc !! "phone" = Some (VStr phone)).
  { intros doc0 H0 _ Hd. destruct (Hs _ _ H0) as (Hp & [Hf Hg] & _).
    split; [done |]. split; [| done]. unfold quota_met. lia. }
  destruct (mem_handle_applications e q s)
    as [E | [(r & -> & Hp & Hq & E) | (ph & E)]]; rewrite E in Hl.
  - destruct (Hs _ _ Hl) as (_ & _ & Hd). by apply (G doc).
  - rewrite lookup_insert in Hl. destruct (decide _) as [<- |].
    + injection Hl as <-. split; [done |]. split.
      * destruct Hq as [Hf Hg]. unfold quota_met. lia.
      * unfold InMemory.a_body. apply lookup_insert_eq.
    + destruct (Hs _ _ Hl) as (_ & _ & Hd). by apply (G doc).
  - rewrite set_upgraded_lookup in Hl. destruct (decide _) as [<- |].
    + destruct (InMemory.applications s !! ph) as [doc0 |] eqn:E0;
        [| discriminate Hl].
      simpl in Hl. injection Hl as <-.
      destruct (Hs _ _ E0) as (_ & _ & Hd).
      apply (G doc0); [done | done |]. by rewrite lookup_insert_ne.
    + destruct (Hs _ _ Hl) as (_ & _ & Hd). by apply (G doc).
Qed.

(** X22. In-memory backend: in every store reached from the empty one,
    every application on record is filed under a non-empty phone that meets
    the share quota (friends >= 10, groups >= 2) and carries that phone in
    its [phone] field. *)
Theorem mem_applications_admitted (qs : list (env * InMemory.request)) :
  admitted (InMemory.serve qs InMemory.empty_db).
Proof.
  assert (G : ∀ s, mem_capped s → admitted s →
                   admitted (InMemory.serve qs s)).
  { induction qs as [| [e q] qs IH]; intros s Hc Hs; simpl; [done |].
    apply IH; [by apply mem_handle_capped | by apply mem_handle_admitted]. }
  apply G; [apply mem_empty_capped |].
  intros phone doc. simpl. by rewrite lookup_empty.
Qed.

Lemma mem_eligibility_can_access_witness :
  let m := InMemory.serve ada_shares InMemory.empty_db in
  let r := InMemory.EligibilityReq "" ada in
  InMemory.plain ada = true
  ∧ InMemory.eligibility r m
    = (json [("canAccessForm", VBool true); ("paid", VBool false);
             ("shares", InMemory.shares_json (InMemory.Shares 10 2))], m)
  ∧ quota_met (mem_shares m ada).
Proof.
  intros m r.
  destruct (mem_eligibility_can_access r m eq_refl eq_refl)
    as (can & paid & E & Hcan).
  assert (E' : fst (InMemory.eligibility r m)
               = json [("canAccessForm", VBool true); ("paid", VBool false);
                       ("shares", InMemory.shares_json (InMemory.Shares 10 2))])
    by (vm_compute; reflexivity).
  rewrite E in E'. cbn [fst] in E'.
  assert (Hc : can = true) by (unfold json in E'; congruence).
  split; [reflexivity |].
  split; [| by apply Hcan].
  rewrite E. f_equal. exact E'.
Defined.

(** X24. A share of a kind other than friend and group, for a non-empty
    phone: the MongoDB backend rejects it with 400 and changes nothing; the
    in-memory backend accepts any non-empty kind and, for a phone under
    which no object inherits anything, answers 200 with the counters as they
    were and puts a 0/0 record on file if the phone had none. *)
Theorem share_of_unknown_kind
    (t : Z) (phone kind : string) (s : Persistent.db) (m : InMemory.db) :
  falsy phone = false →
  falsy kind = false →
  kind ≠ "friend" →
  kind ≠ "group" →
  InMemory.plain phone = true →
  Persistent.share t (Persistent.ShareReq phone kind) s
  = (error_json 400 "Invalid", s)
  ∧ fst (InMemory.share (InMemory.ShareReq phone kind) m)
    = json [("friends", VNum (fst (mem_shares m phone)));
            ("groups", VNum (snd (mem_shares m phone)))]
  ∧ InMemory.shares (snd (InMemory.share (InMemory.ShareReq phone kind) m))
      !! phone
    = Some (default (InMemory.Shares 0 0) (InMemory.shares m !! phone))
  ∧ (∀ other,
       mem_shares (snd (InMemory.share (InMemory.ShareReq phone kind) m)) other
       = mem_shares m other).
Proof.
  intros Hp Hk Hf Hg Hplain. apply String.eqb_neq in Hf, Hg.
  rewrite mem_share_plain by done.
  unfold Persistent.share, Persistent.valid_type, advanced. simpl.
  rewrite Hp, Hf, Hg. simpl.
  split; [done |]. rewrite mem_shares_default.
  split; [done |]. split; [apply lookup_insert_eq |].
  intros other. rewrite mem_shares_insert.
  destruct (decide _) as [<- |]; [| done]. by rewrite mem_shares_default.
Qed.

Lemma share_of_unknown_kind_witness :
  let m' := snd (InMemory.share (InMemory.ShareReq ada "family")
                   InMemory.empty_db) in
  InMemory.plain ada = true
  ∧ code (fst (Persistent.share 3 (Persistent.ShareReq ada "family")
                 Persistent.empty_db)) = 400
  ∧ code (fst (InMemory.share (InMemory.ShareReq ada "family")
                 InMemory.empty_db)) = 200
  ∧ InMemory.shares InMemory.empty_db !! ada = None
  ∧ InMemory.shares m' !! ada = Some (InMemory.Shares 0 0).
Proof.
  intros m'.
  assert (H1 : "family" ≠ "friend") by discriminate.
  assert (H2 : "family" ≠ "group") by discriminate.
  destruct (share_of_unknown_kind 3 ada "family" Persistent.empty_db
              InMemory.empty_db eq_refl eq_refl H1 H2 eq_refl)
    as (Hp & Hr & Hl & _).
  split; [reflexivity |].
  split; [by rewrite Hp |]. split; [by rewrite Hr |].
  split; [reflexivity | exact Hl].
Defined.

(** *** The share quota, backend by backend *)

(** X26. MongoDB backend: starting from the empty store, after any finite
    sequence of requests (share events of any phone and kind, interleaved
    with any other request) the share record of every phone, 0/0 when it has
    none, satisfies 0 <= friends <= 10 and 0 <= groups <= 2. *)
Theorem mongo_share_counters_within_caps
    (qs : list (env * Persistent.request)) (phone : string) :
  within_caps
    (Persistent.find_shares (Persistent.serve qs Persistent.empty_db) phone).
Proof. apply serve_capped, empty_capped. Qed.

(** X27. In-memory backend: starting from the empty store, after any finite
    sequence of requests, for every phone under which no object inherits
    anything, the share record the handlers read (0/0 when the phone has
    none) satisfies 0 <= friends <= 10 and 0 <= groups <= 2, and each
    counter they read is such a number. *)
Theorem mem_share_counters_within_caps
    (qs : list (env * InMemory.request)) (phone : string) :
  InMemory.plain phone = true →
  let m := InMemory.serve qs InMemory.empty_db in
  within_caps (mem_shares m phone)
  ∧ InMemory.lookup (InMemory.shares m) m phone
    = match InMemory.shares m !! phone with
      | Some u => InMemory.Own u
      | None => InMemory.Undefined
      end
  ∧ ∀ k, counter_within_cap k (stored_counter m phone k).
Proof.
  intros Hk m.
  pose proof (mem_serve_capped qs _ mem_empty_capped phone) as Hc.
  fold m in Hc.
  split; [exact Hc |]. split; [by apply lookup_plain |].
  intros k. rewrite stored_counter_plain by done.
  destruct (InMemory.shares m !! phone); [| done]. simpl.
  destruct Hc as [Hf Hg]. destruct k; simpl; lia.
Qed.

Lemma mem_share_counters_within_caps_witness :
  let qs :=
    (ada_shares
     ++ replicate 3 (at_noon confirming,
                     InMemory.PostShare (InMemory.ShareReq ada "friend")))%list in
  let m := InMemory.serve qs InMemory.empty_db in
  InMemory.plain ada = true
  ∧ mem_shares m ada = (10, 2)
  ∧ counter_within_cap KFriend (stored_counter m ada KFriend).
Proof.
  intros qs m.
  destruct (mem_share_counters_within_caps qs ada eq_refl) as (_ & _ & H).
  split; [reflexivity |]. split; [vm_compute; reflexivity |].
  exact (H KFriend).
Defined.

(** X28. MongoDB backend: a share event of a valid kind for a non-empty
    phone advances the matching counter by exactly one (and leaves the other
    counter alone) when that counter is below its cap, and leaves the
    record's counters as they were when the counter is at its cap (10 for
    friend, 2 for group), where only the [updated_at] stamp of the document
    is refreshed; the records of other phones are never touched.  Five
    group events from the empty store leave groups at 2. *)
Theorem mongo_share_advances_or_clamps
    (t : Z) (phone : string) (k : kind) (s : Persistent.db) (e : env) :
  falsy phone = false →
  let req := Persistent.ShareReq phone (kind_name k) in
  let s' := snd (Persistent.share t req s) in
  (counter k (Persistent.find_shares s phone) < cap k →
     counter k (Persistent.find_shares s' phone)
       = counter k (Persistent.find_shares s phone) + 1
     ∧ other_counter k (Persistent.find_shares s' phone)
       = other_counter k (Persistent.find_shares s phone))
  ∧ (counter k (Persistent.find_shares s phone) = cap k →
     Persistent.find_shares s' phone = Persistent.find_shares s phone)
  ∧ (∀ other, other ≠ phone →
     Persistent.shares s' !! other = Persistent.shares s !! other)
  ∧ Persistent.find_shares
      (Persistent.serve
         (replicate 5 (e, Persistent.PostShare (Persistent.ShareReq phone "group")))
         Persistent.empty_db) phone = (0, 2).
Proof.
  intros Hp req s'. subst req s'.
  repeat split.
  - rewrite share_counters by done. destruct k; simpl in *; lia.
  - rewrite share_counters by done. destruct k; simpl in *; lia.
  - intros Hc. rewrite share_counters by done.
    destruct (Persistent.find_shares s phone) as [f g].
    destruct k; simpl in *; f_equal; lia.
  - intros other Hne. by apply share_others.
  - simpl. rewrite !(share_counters _ phone KGroup) by done.
    unfold Persistent.find_shares. simpl. by rewrite lookup_empty.
Qed.

Lemma mongo_share_advances_or_clamps_witness :
  let e := at_noon confirming in
  let s := Persistent.Db {["0801" := Persistent.ShareDoc 3 2 0]} ∅ ∅ in
  falsy "0801" = false
  ∧ Persistent.find_shares
      (snd (Persistent.share 7 (Persistent.ShareReq "0801" "friend") s)) "0801"
    = (4, 2)
  ∧ Persistent.find_shares
      (snd (Persistent.share 7 (Persistent.ShareReq "0801" "group") s)) "0801"
    = (3, 2).
Proof.
  intros e s.
  pose proof (mongo_share_advances_or_clamps 7 "0801" KFriend s e eq_refl) as F.
  pose proof (mongo_share_advances_or_clamps 7 "0801" KGroup s e eq_refl) as G.
  cbv zeta in F, G.
  destruct F as [Fp _], G as [_ [Gp _]].
  assert (Hs : Persistent.find_shares s "0801" = (3, 2)) by reflexivity.
  rewrite Hs in Fp, Gp.
  split; [reflexivity |]. split.
  - destruct (Persistent.find_shares _ _) as [f g].
    destruct Fp as [Ff Fg]; [simpl; lia |]. simpl in Ff, Fg. by subst.
  - apply Gp. reflexivity.
Defined.

(** X29. In-memory backend: for a non-empty phone under which no object
    inherits anything, a share event of a valid kind advances the matching
    counter by exactly one (and leaves the other counter alone) when that
    counter is below its cap, and leaves the whole store as it was when the
    counter is at its cap (10 for friend, 2 for group); the records of other
    phones are never touched, and the phone has a record of its own on file
    afterwards.  Five group events from the empty store leave groups
    at 2. *)
Theorem mem_share_advances_or_clamps
    (phone : string) (k : kind) (m : InMemory.db) (e : env) :
  falsy phone = false →
  InMemory.plain phone = true →
  let mreq := InMemory.ShareReq phone (kind_name k) in
  let m' := snd (InMemory.share mreq m) in
  (counter k (mem_shares m phone) < cap k →
     counter k (mem_shares m' phone) = counter k (mem_shares m phone) + 1
     ∧ other_counter k (mem_shares m' phone)
       = other_counter k (mem_shares m phone))
  ∧ (counter k (mem_shares m phone) = cap k → m' = m)
  ∧ (∀ other, other ≠ phone →
     InMemory.shares m' !! other = InMemory.shares m !! other)
  ∧ stored_counter m' phone k
    = Some (InMemory.Num (counter k (mem_shares m' phone)))
  ∧ mem_shares
      (InMemory.serve
         (replicate 5 (e, InMemory.PostShare (InMemory.ShareReq phone "group")))
         InMemory.empty_db) phone = (0, 2).
Proof.
  intros Hp Hk mreq m'. subst mreq m'.
  assert (Ht : falsy (kind_name k) = false) by by destruct k.
  repeat split.
  - rewrite mem_share_counters by done. destruct k; simpl in *; lia.
  - rewrite mem_share_counters by done. destruct k; simpl in *; lia.
  - by apply mem_share_at_cap.
  - intros other Hne. rewrite mem_share_plain by done. simpl.
    by rewrite lookup_insert_ne.
  - rewrite stored_counter_plain by done.
    rewrite mem_share_plain by done. cbv zeta. cbn [snd InMemory.shares].
    by rewrite lookup_insert_eq.
  - simpl. rewrite !(mem_share_counters phone KGroup) by done.
    unfold mem_shares. simpl. by rewrite lookup_empty.
Qed.

Lemma mem_share_advances_or_clamps_witness :
  let e := at_noon confirming in
  let m := InMemory.Db {["0801" := InMemory.Shares 3 2]} ∅ ∅ ∅ in
  falsy "0801" = false
  ∧ InMemory.plain "0801" = true
  ∧ mem_shares
      (snd (InMemory.share (InMemory.ShareReq "0801" "friend") m)) "0801"
    = (4, 2)
  ∧ snd (InMemory.share (InMemory.ShareReq "0801" "group") m) = m.
Proof.
  intros e m.
  pose proof (mem_share_advances_or_clamps "0801" KFriend m e eq_refl eq_refl)
    as F.
  pose proof (mem_share_advances_or_clamps "0801" KGroup m e eq_refl eq_refl)
    as G.
  cbv zeta in F, G.
  destruct F as [Fm _], G as [_ [Gm _]].
  assert (Hm : mem_shares m "0801" = (3, 2)) by reflexivity.
  rewrite Hm in Fm, Gm.
  split; [reflexivity |]. split; [reflexivity |]. split.
  - destruct (mem_shares _ _) as [f g].
    destruct Fm as [Ff Fg]; [simpl; lia |]. simpl in Ff, Fg. by subst.
  - apply Gm. reflexivity.
Defined.

(** X30. MongoDB backend: for a non-empty phone whose application record
    has upgraded = true, a POST /api/application whose form data is flat
    (plain field names, no dots or dollars, scalar values) and has no
    [upgraded] field of its own succeeds, writes every field of the form
    data (with [phone] and a fresh [updatedAt]) into the record, keeps the
    fields the request does not name, and leaves upgraded = true. *)
Theorem resubmission_keeps_upgraded
    (t : Z) (r : Persistent.application_req) (s : Persistent.db)
    (doc : gmap string value) :
  falsy (Persistent.a_phone r) = false →
  Persistent.applications s !! Persistent.a_phone r = Some doc →
  doc !! "upgraded" = Some (VBool true) →
  Persistent.flat_form (Persistent.a_form r) →
  Persistent.a_form r !! "upgraded" = None →
  fst (Persistent.application t r s) = json [("success", VBool true)]
  ∧ ∃ doc',
      Persistent.applications (snd (Persistent.application t r s))
        !! Persistent.a_phone r = Some doc'
      ∧ doc' !! "upgraded" = Some (VBool true)
      ∧ doc' !! "phone" = Some (VStr (Persistent.a_phone r))
      ∧ doc' !! "updatedAt" = Some (VDate t)
      ∧ (∀ k v, k ≠ "updatedAt" → k ≠ "phone" →
                Persistent.a_form r !! k = Some v → doc' !! k = Some v)
      ∧ (∀ k, k ≠ "updatedAt" → k ≠ "phone" →
              Persistent.a_form r !! k = None → doc' !! k = doc !! k).
Proof.
  intros Hp Hdoc Hup _ Hform.
  rewrite application_upserts by done. simpl.
  split; [reflexivity |].
  rewrite lookup_insert_eq, Hdoc. simpl.
  eexists. split; [reflexivity |].
  split; [| split; [| split; [| split]]].
  - rewrite lookup_union_r; [done |].
    by rewrite application_set_lookup.
  - apply lookup_union_Some_l. unfold Persistent.application_set.
    rewrite lookup_insert_ne by done. by rewrite lookup_insert_eq.
  - apply lookup_union_Some_l. unfold Persistent.application_set.
    by rewrite lookup_insert_eq.
  - intros k v H1 H2 Hk. apply lookup_union_Some_l.
    by rewrite application_set_lookup.
  - intros k H1 H2 Hk. apply lookup_union_r.
    by rewrite application_set_lookup.
Qed.

Lemma resubmission_keeps_upgraded_witness :
  let r := Persistent.ApplicationReq ada {["name" := VStr "Ada O."]} in
  let out := Persistent.application 1700000000001 r ada_upgraded in
  Persistent.flat_form (Persistent.a_form r)
  ∧ fst out = json [("success", VBool true)]
  ∧ ∃ doc',
      Persistent.applications (snd out) !! ada = Some doc'
      ∧ doc' !! "upgraded" = Some (VBool true)
      ∧ doc' !! "name" = Some (VStr "Ada O.").
Proof.
  intros r out. subst out.
  assert (Hdoc : Persistent.applications ada_upgraded !! ada
                 = Some {["updatedAt" := VDate 1700000000000;
                          "phone" := VStr ada; "name" := VStr "Ada";
                          "upgraded" := VBool true]})
    by (vm_compute; reflexivity).
  assert (Hflat : Persistent.flat_form (Persistent.a_form r))
    by by apply flat_form_singleton.
  destruct (resubmission_keeps_upgraded 1700000000001 r ada_upgraded _
              eq_refl Hdoc eq_refl Hflat eq_refl)
    as [Hresp (doc' & Hl & Hup & _ & _ & Hnew & _)].
  split; [exact Hflat |].
  split; [exact Hresp |].
  exists doc'. split; [exact Hl |]. split; [exact Hup |].
  apply Hnew; [discriminate | discriminate | reflexivity].
Defined.

